(** * YakusokuKeeper: the trigger evaluation of [yakusoku_keeper.py]

    A shallow embedding of [YakusokuKeeper.get_rules], [load_rules] and
    [reset], and the properties of the rule dispatch they implement.

    Conventions of the embedding.
    - A rule document (the [dict] that [yaml.safe_load] returns) is an
      association list in insertion order, from keys to lists of directive
      strings.  A [dict] holds each key once; no statement below needs it.
      Keys are strings of 8-bit characters.  YAML that parses to something
      else (a top level that is no mapping, a key that is no string, a value
      that is no list of strings) is outside the model.
    - The two configuration files are an input of [get_rules]: what
      [load_rules] finds at each path when the call is made.
    - [datetime] values are counted in microseconds (the resolution of
      [datetime]) as integers; [(now - last).total_seconds() >= minutes * 60]
      is the comparison [minutes * 60 * 10^6 <= now - last], which is what the
      rounded quotient of [total_seconds] decides for every difference below
      2^53 microseconds (some 285 years).
    - A Python exception ends the call; the mutations made before it stay in
      the object, so every computation returns the object it leaves behind
      next to its result. *)

From Stdlib Require Import ZArith Lia List Bool Ascii String DecimalString DecimalPos.
From stdpp Require Import base option strings gmap.

Import ListNotations.
Open Scope Z_scope.

(** ** Strings: the [str] methods the evaluator uses *)

Module PyStr.

(** [key.startswith(p)] *)
Definition startswith (s p : string) : bool := String.prefix p s.

(** [sub in s] *)
Fixpoint contains (sub s : string) : bool :=
  String.prefix sub s
  || match s with
     | EmptyString => false
     | String _ s' => contains sub s'
     end.

(** [s.split(sep)] for a separator of one character. *)
Fixpoint split (sep : ascii) (s : string) : list string :=
  match s with
  | EmptyString => [EmptyString]
  | String c s' =>
      if Ascii.eqb c sep then EmptyString :: split sep s'
      else match split sep s' with
           | [] => [String c EmptyString]
           | w :: ws => String c w :: ws
           end
  end.

(** The characters [int] skips around a literal, among the code points
    below 256: tab to carriage return, space, NEL and the no-break space. *)
Definition isspace (c : ascii) : bool :=
  let n := N_of_ascii c in
  ((9 <=? n) && (n <=? 13) || (n =? 32) || (n =? 133) || (n =? 160))%N.

Definition digit (c : ascii) : option Z :=
  let n := N_of_ascii c in
  if ((48 <=? n) && (n <=? 57))%N then Some (Z.of_N n - 48) else None.

Fixpoint all_space (s : string) : bool :=
  match s with
  | EmptyString => true
  | String c s' => isspace c && all_space s'
  end.

(** Digits, then white space up to the end.  [seen] records that a digit has
    been read, [acc] is the value so far. *)
Fixpoint digits (s : string) (seen : bool) (acc : Z) : option Z :=
  match s with
  | EmptyString => if seen then Some acc else None
  | String c s' =>
      match digit c with
      | Some d => digits s' true (10 * acc + d)
      | None => if seen && all_space s then Some acc else None
      end
  end.

Definition signed (s : string) : option Z :=
  match s with
  | String "+" s' => digits s' false 0
  | String "-" s' => Z.opp <$> digits s' false 0
  | _ => digits s false 0
  end.

Fixpoint lstrip (s : string) : string :=
  match s with
  | String c s' => if isspace c then lstrip s' else s
  | EmptyString => EmptyString
  end.

(** [int(s)] in base 10 on a string without underscore (a piece of
    [split("_")] has none): [None] stands for [ValueError].  The limit that
    recent interpreters put on the number of digits is not modelled. *)
Definition int (s : string) : option Z := signed (lstrip s).

End PyStr.

(** ** Data model *)

(** A rule document: trigger keys with their directives, in insertion order. *)
Definition RuleDocument : Type := list (string * list string).

(** What [load_rules] finds at one of the two configuration paths. *)
Inductive ConfigFile : Type :=
| Missing                          (* [f.exists()] is false *)
| Unparsable                       (* [yaml.safe_load] raises [YAMLError] *)
| Parsed (data : RuleDocument).    (* [yaml.safe_load] returns [data] *)

(** The attributes of a [YakusokuKeeper] object. *)
Record YakusokuKeeper : Type := mkKeeper {
  input_count : Z;
  last_executed_time : gmap string Z;
  rules : list RuleDocument
}.

(** [YakusokuKeeper.__init__], the configuration files apart. *)
Definition init : YakusokuKeeper :=
  {| input_count := 0; last_executed_time := ∅; rules := [] |}.

Inductive Exn : Type := ValueError | ZeroDivisionError | IndexError.

Inductive Res (A : Type) : Type :=
| Return (a : A)
| Raise (e : Exn).
Arguments Return {A} a.
Arguments Raise {A} e.

(** ** A state and exception monad over the object *)

Definition M (A : Type) : Type := YakusokuKeeper -> Res A * YakusokuKeeper.

Definition ret {A} (a : A) : M A := fun self => (Return a, self).

Definition raise {A} (e : Exn) : M A := fun self => (Raise e, self).

Definition bind {A B} (f : A -> M B) (m : M A) : M B :=
  fun self =>
    match m self with
    | (Return a, self') => f a self'
    | (Raise e, self') => (Raise e, self')
    end.

#[export] Instance M_ret : MRet M := @ret.
#[export] Instance M_bind : MBind M := @bind.

Definition gets {A} (f : YakusokuKeeper -> A) : M A := fun self => (Return (f self), self).

Definition modify (f : YakusokuKeeper -> YakusokuKeeper) : M unit :=
  fun self => (Return tt, f self).

(** A [for] loop that threads a local variable. *)
Fixpoint for_each {A B} (l : list A) (body : B -> A -> M B) (b : B) : M B :=
  match l with
  | [] => ret b
  | x :: l' => b' ← body b x; for_each l' body b'
  end.

(** ** The operations *)

(** [rule_set.get(key, [])] *)
Fixpoint get (key : string) (rule_set : RuleDocument) : list string :=
  match rule_set with
  | [] => []
  | (k, v) :: rest => if String.eqb k key then v else get key rest
  end.

(** [int(key.split("_")[1])] *)
Definition int_of_key (key : string) : M Z :=
  match PyStr.split "_" key !! 1%nat with
  | None => raise IndexError
  | Some piece =>
      match PyStr.int piece with
      | None => raise ValueError
      | Some n => ret n
      end
  end.

(** [a % n] *)
Definition py_mod (a n : Z) : M Z :=
  if n =? 0 then raise ZeroDivisionError else ret (a mod n).

Definition set_last_executed_time (key : string) (now : Z) (self : YakusokuKeeper) : YakusokuKeeper :=
  {| input_count := input_count self;
     last_executed_time := <[key := now]> (last_executed_time self);
     rules := rules self |}.

Definition microseconds_per_minute : Z := 60 * 1000000.

(** The input-count test of the loop body of [get_rules]. *)
Definition input_rule (applicable : list string) (key : string) (actions : list string)
  : M (list string) :=
  if PyStr.startswith key "every_" && PyStr.contains "_inputs" key then
    n ← int_of_key key;
    count ← gets input_count;
    r ← py_mod count n;
    if r =? 0 then ret (applicable ++ actions) else ret applicable
  else ret applicable.

(** The time test of the loop body of [get_rules]. *)
Definition time_rule (now : Z) (applicable : list string) (key : string) (actions : list string)
  : M (list string) :=
  if PyStr.startswith key "every_" && PyStr.contains "_minutes" key then
    minutes ← int_of_key key;
    last_time ← gets (fun self => last_executed_time self !! key);
    if match last_time with
       | None => true
       | Some t => minutes * microseconds_per_minute <=? now - t
       end
    then modify (set_last_executed_time key now);; ret (applicable ++ actions)
    else ret applicable
  else ret applicable.

(** The body of [for key, actions in rule_set.items()]. *)
Definition item_body (now : Z) (applicable : list string) (item : string * list string)
  : M (list string) :=
  let '(key, actions) := item in
  applicable ← input_rule applicable key actions;
  time_rule now applicable key actions.

(** The body of [for rule_set in self.rules]. *)
Definition rule_set_body (now : Z) (applicable : list string) (rule_set : RuleDocument)
  : M (list string) :=
  let first_rules := get "first" rule_set in
  count ← gets input_count;
  let applicable := if count =? 1 then applicable ++ first_rules else applicable in
  for_each rule_set (item_body now) applicable.

(** The documents [load_rules] keeps: those that parse to a non-empty mapping. *)
Fixpoint loaded (files : list ConfigFile) : list RuleDocument :=
  match files with
  | [] => []
  | Parsed ((_ :: _) as data) :: rest => data :: loaded rest
  | _ :: rest => loaded rest
  end.

Definition load_rules (files : list ConfigFile) : M unit :=
  modify (fun self =>
    {| input_count := input_count self;
       last_executed_time := last_executed_time self;
       rules := loaded files |}).

(** [get_rules], in a world where the configuration paths hold [files] and the
    clock reads [now]. *)
Definition get_rules (files : list ConfigFile) (now : Z) : M (list string) :=
  modify (fun self =>
    {| input_count := input_count self + 1;
       last_executed_time := last_executed_time self;
       rules := rules self |});;
  load_rules files;;
  rs ← gets rules;
  for_each rs (rule_set_body now) [].

Definition reset : M unit :=
  modify (fun self =>
    {| input_count := 0; last_executed_time := ∅; rules := rules self |}).

(** The end to end scenario of the documentation: four calls on
    [{first: [hi], every_2_inputs: [even]}]. *)
Definition scenario_doc : ConfigFile :=
  Parsed [("first", ["hi"]); ("every_2_inputs", ["even"])]%string.

(** ** Vocabulary of the statements *)

(** A positive integer written in decimal, and the two periodic keys of the
    documented form. *)
Definition decimal (n : positive) : string :=
  NilEmpty.string_of_uint (Pos.to_uint n).

Definition inputs_key (n : positive) : string :=
  ("every_" ++ decimal n ++ "_inputs")%string.

Definition minutes_key (n : positive) : string :=
  ("every_" ++ decimal n ++ "_minutes")%string.

(** The two tests [get_rules] makes on a key, and the integer it reads in it. *)
Definition is_input_key (key : string) : bool :=
  PyStr.startswith key "every_" && PyStr.contains "_inputs" key.

Definition is_time_key (key : string) : bool :=
  PyStr.startswith key "every_" && PyStr.contains "_minutes" key.

Definition piece_int (key : string) : option Z :=
  match PyStr.split "_" key !! 1%nat with
  | Some piece => PyStr.int piece
  | None => None
  end.

(** A key at which the loop body raises nothing. *)
Definition key_ok (key : string) : bool :=
  (if is_input_key key
   then match piece_int key with Some n => negb (n =? 0) | None => false end
   else true)
  && (if is_time_key key
      then match piece_int key with Some _ => true | None => false end
      else true).

Definition items_ok (items : RuleDocument) : bool :=
  forallb (fun item : string * list string => key_ok item.1) items.

Definition keys_ok (docs : list RuleDocument) : bool := forallb items_ok docs.

(** A key on which neither test of the loop body is made. *)
Definition inert_key (key : string) : bool :=
  negb (is_input_key key) && negb (is_time_key key).

(** The time test against a table of last executions. *)
Definition elapsed (table : gmap string Z) (now : Z) (key : string) (minutes : Z) : bool :=
  match table !! key with
  | None => true
  | Some t => minutes * microseconds_per_minute <=? now - t
  end.

Definition input_fires (count : Z) (key : string) : bool :=
  is_input_key key
  && match piece_int key with
     | Some n => negb (n =? 0) && (count mod n =? 0)
     | None => false
     end.

Definition time_fires (table : gmap string Z) (now : Z) (key : string) : bool :=
  is_time_key key
  && match piece_int key with
     | Some minutes => elapsed table now key minutes
     | None => false
     end.

(** What one item and one document contribute when the counter reads [count]
    and the table of last executions is [table]. *)
Definition fired (count : Z) (table : gmap string Z) (now : Z)
    (item : string * list string) : list string :=
  (if input_fires count item.1 then item.2 else [])
  ++ (if time_fires table now item.1 then item.2 else []).

Definition matches (count : Z) (table : gmap string Z) (now : Z)
    (rule_set : RuleDocument) : list string :=
  (if count =? 1 then get "first" rule_set else [])
  ++ flat_map (fired count table now) rule_set.

(** The table after the loop body has run on an item, and the run of the
    loops on keys that raise nothing, as functions of the table. *)
Definition table_after (table : gmap string Z) (now : Z) (key : string) : gmap string Z :=
  if time_fires table now key then <[key := now]> table else table.

Fixpoint run_items (count now : Z) (items : RuleDocument) (table : gmap string Z)
  : list string * gmap string Z :=
  match items with
  | [] => ([], table)
  | item :: rest =>
      let '(out, table') := run_items count now rest (table_after table now item.1) in
      (fired count table now item ++ out, table')
  end.

Fixpoint run_docs (count now : Z) (docs : list RuleDocument) (table : gmap string Z)
  : list string * gmap string Z :=
  match docs with
  | [] => ([], table)
  | d :: rest =>
      let '(out_d, table_d) := run_items count now d table in
      let '(out, table') := run_docs count now rest table_d in
      ((if count =? 1 then get "first" d else []) ++ out_d ++ out, table')
  end.

Definition with_table (self : YakusokuKeeper) (table : gmap string Z) : YakusokuKeeper :=
  {| input_count := input_count self; last_executed_time := table; rules := rules self |}.

(** What [get_rules] does to the object before its loop. *)
Definition entered (files : list ConfigFile) (self : YakusokuKeeper) : YakusokuKeeper :=
  {| input_count := input_count self + 1;
     last_executed_time := last_executed_time self;
     rules := loaded files |}.

(** A list put in front of what a computation returns. *)
Definition prepend (acc : list string) (r : Res (list string) * YakusokuKeeper)
  : Res (list string) * YakusokuKeeper :=
  match r with
  | (Return l, self) => (Return (acc ++ l), self)
  | (Raise e, self) => (Raise e, self)
  end.

(** What a document alone contributes, as a computation on the object. *)
Definition document_matches (now : Z) (rule_set : RuleDocument) : M (list string) :=
  rule_set_body now [] rule_set.

(** The object after a series of [get_rules] calls, each with the files and
    the clock reading of its moment, whatever they returned. *)
Definition after_calls (calls : list (list ConfigFile * Z)) (self : YakusokuKeeper)
  : YakusokuKeeper :=
  fold_left (fun self call => (get_rules call.1 call.2 self).2) calls self.

(** Directives and keys of a list of documents. *)
Definition has_directive (x : string) (item : string * list string) : bool :=
  existsb (String.eqb x) item.2.

Definition no_directive (x : string) (docs : list RuleDocument) : bool :=
  forallb (forallb (fun item => negb (has_directive x item))) docs.

Definition no_key (key : string) (docs : list RuleDocument) : bool :=
  forallb (forallb (fun item : string * list string => negb (String.eqb item.1 key))) docs.

Definition only_under (key x : string) (docs : list RuleDocument) : bool :=
  forallb (forallb (fun item : string * list string =>
                      String.eqb item.1 key || negb (has_directive x item))) docs.

Definition item_time_keys (items : RuleDocument) : list string :=
  filter (fun key => is_time_key key = true) (map fst items).

Definition time_keys (docs : list RuleDocument) : list string :=
  item_time_keys (concat docs).

Fixpoint distinct (keys : list string) : bool :=
  match keys with
  | [] => true
  | key :: rest => negb (existsb (String.eqb key) rest) && distinct rest
  end.

(** The invariant of the table of last executions. *)
Definition table_keys_timed (self : YakusokuKeeper) : Prop :=
  forall key t, last_executed_time self !! key = Some t ->
    is_time_key key = true /\ exists minutes, piece_int key = Some minutes.

(** ** The documentation's own words, for comparison *)

(** The documented grammar of trigger keys. *)
Definition documented_key (key : string) : Prop :=
  key = "first"%string \/ exists n : positive, key = inputs_key n \/ key = minutes_key n.

Definition documented_time_key (key : string) : Prop :=
  exists n : positive, key = minutes_key n.

(** The documented order inside a document: the [first] directives, then
    those of the input keys, then those of the time keys. *)
Definition documented_matches (count : Z) (table : gmap string Z) (now : Z)
    (rule_set : RuleDocument) : list string :=
  (if count =? 1 then get "first" rule_set else [])
  ++ flat_map (fun item : string * list string =>
                 if input_fires count item.1 then item.2 else []) rule_set
  ++ flat_map (fun item : string * list string =>
                 if time_fires table now item.1 then item.2 else []) rule_set.

(** ** The configuration files and the operations that edit them *)

(** The two configuration paths, each with what [yaml.safe_load] makes of the
    file there ([Parsed []] for a file that loads as [None] or as an empty
    mapping).  What [yaml.dump] writes loads back as the mapping dumped. *)
Record Files : Type := mkFiles {
  home_file : ConfigFile;       (* [HOME_YAKUSOKU_FILE] *)
  project_file : ConfigFile     (* [PROJECT_YAKUSOKU_FILE] *)
}.

(** The list [[HOME_YAKUSOKU_FILE, PROJECT_YAKUSOKU_FILE]] of [load_rules]. *)
Definition config_files (fs : Files) : list ConfigFile :=
  [home_file fs; project_file fs].

(** [config_file] of [add_rule] and [remove_rule]: the home file for the
    target ["home"], the project file for any other. *)
Definition is_home (target : string) : bool := String.eqb target "home".

Definition config_file (target : string) (fs : Files) : ConfigFile :=
  if is_home target then home_file fs else project_file fs.

Definition write_config_file (target : string) (f : ConfigFile) (fs : Files) : Files :=
  if is_home target
  then {| home_file := f; project_file := project_file fs |}
  else {| home_file := home_file fs; project_file := f |}.

(** The dictionaries that the editing operations return. *)
Inductive Status : Type := success | warning | error.

Inductive Message : Type :=
| ConfigFileDoesNotExist      (* "Config file ... does not exist" *)
| InvalidRuleType             (* "Invalid rule type or missing value" *)
| RuleAlreadyExists           (* "Rule already exists" *)
| RuleAdded                   (* "Rule added to <file name>" *)
| RuleTypeNotFound (key : string)   (* "Rule type '<key>' not found in config" *)
| RuleRemoved                 (* "Rule removed from <file name>" *)
| RuleNotFound                (* "Rule not found in config" *)
| YamlParsingError.           (* "YAML parsing error: ..." *)

Definition Reply : Type := Status * Message.

(** [str(value)] of an [int]. *)
Definition str_of_int (z : Z) : string :=
  match z with
  | Z0 => "0"
  | Z.pos p => decimal p
  | Z.neg p => String "-" (decimal p)
  end.

(** The digits of [str_of_int]. *)
Definition digits_of (z : Z) : Decimal.uint :=
  match z with
  | Z0 => Decimal.D0 Decimal.Nil
  | Z.pos p | Z.neg p => Pos.to_uint p
  end.

(** [f"every_{value}_inputs"] and [f"every_{value}_minutes"]. *)
Definition every_inputs (value : Z) : string :=
  ("every_" ++ str_of_int value ++ "_inputs")%string.

Definition every_minutes (value : Z) : string :=
  ("every_" ++ str_of_int value ++ "_minutes")%string.

(** The truth value of [value]: [None] and [0] are false. *)
Definition truthy (value : option Z) : bool :=
  match value with
  | Some z => negb (z =? 0)
  | None => false
  end.

(** The key that [add_rule] and [remove_rule] work on, [None] where they
    answer "Invalid rule type or missing value". *)
Definition rule_key (rule_type : string) (value : option Z) : option string :=
  if String.eqb rule_type "first" then Some "first"%string
  else if String.eqb rule_type "every_N_inputs" && truthy value
  then Some (every_inputs (default 0 value))
  else if String.eqb rule_type "every_N_minutes" && truthy value
  then Some (every_minutes (default 0 value))
  else None.

(** [key in config] *)
Fixpoint has_key (key : string) (config : RuleDocument) : bool :=
  match config with
  | [] => false
  | (k, _) :: rest => String.eqb k key || has_key key rest
  end.

(** [config[key] = v]: in place for a key of the mapping, at the end for a
    new one. *)
Fixpoint set_item (key : string) (v : list string) (config : RuleDocument) : RuleDocument :=
  match config with
  | [] => [(key, v)]
  | (k, w) :: rest =>
      if String.eqb k key then (k, v) :: rest else (k, w) :: set_item key v rest
  end.

(** [del config[key]] *)
Fixpoint del_item (key : string) (config : RuleDocument) : RuleDocument :=
  match config with
  | [] => []
  | (k, w) :: rest => if String.eqb k key then rest else (k, w) :: del_item key rest
  end.

(** [x in l] and [l.remove(x)] on a list of strings. *)
Definition mem (x : string) (l : list string) : bool := existsb (String.eqb x) l.

Fixpoint list_remove (x : string) (l : list string) : list string :=
  match l with
  | [] => []
  | y :: rest => if String.eqb y x then rest else y :: list_remove x rest
  end.

(** [add_rule(rule_type, rule_content, target, value)] on the files [fs]. *)
Definition add_rule (rule_type rule_content target : string) (value : option Z)
    (fs : Files) : Reply * Files :=
  match config_file target fs with
  | Missing => ((error, ConfigFileDoesNotExist), fs)
  | Unparsable => ((error, YamlParsingError), fs)
  | Parsed config =>
      match rule_key rule_type value with
      | None => ((error, InvalidRuleType), fs)
      | Some key =>
          let config := if has_key key config then config else set_item key [] config in
          if mem rule_content (get key config)
          then ((warning, RuleAlreadyExists), fs)
          else
            let config := set_item key (get key config ++ [rule_content]) config in
            ((success, RuleAdded), write_config_file target (Parsed config) fs)
      end
  end.

(** [remove_rule(rule_type, rule_content, target, value)] on the files [fs].
    A mapping left empty is written as a comment line, which loads as [None]. *)
Definition remove_rule (rule_type rule_content target : string) (value : option Z)
    (fs : Files) : Reply * Files :=
  match config_file target fs with
  | Missing => ((error, ConfigFileDoesNotExist), fs)
  | Unparsable => ((error, YamlParsingError), fs)
  | Parsed config =>
      match rule_key rule_type value with
      | None => ((error, InvalidRuleType), fs)
      | Some key =>
          if negb (has_key key config)
          then ((warning, RuleTypeNotFound key), fs)
          else if mem rule_content (get key config)
          then
            let rest := list_remove rule_content (get key config) in
            let config :=
              match rest with
              | [] => del_item key config
              | _ :: _ => set_item key rest config
              end in
            ((success, RuleRemoved), write_config_file target (Parsed config) fs)
          else ((warning, RuleNotFound), fs)
      end
  end.

(** The text of [create_default_project_rules] as it loads.  The text of
    [create_default_home_rules] is made of comments and loads as [None]. *)
Definition default_project_rules : RuleDocument :=
  [("first",
    ["At the beginning of the response, insert the string that follows "
       ++ String "034" ("say" ++ String "034" ".");
     "say Hello! I am Yakusoku Keeper.";
     "Generate code using the K&R coding style.";
     "Use only < and <= operators for all comparisons.";
     "Read and follow ./docs/README_CODING_STANDARDS.md";
     "When using replace_symbol_body, insert_after_symbol, or insert_before_symbol, you MUST present the code block—preferably in diff format—and you MUST obtain explicit approval before applying any change."]);
   ("every_5_inputs", ["Generate code using the K&R coding style."]);
   ("every_10_inputs",
    ["Use only < and <= operators for all comparisons.";
     "When using replace_symbol_body, insert_after_symbol, or insert_before_symbol, you MUST present the code block—preferably in diff format—and you MUST obtain explicit approval before applying any change."]);
   ("every_60_minutes", ["Read and follow ./docs/README_CODING_STANDARDS.md"])]%string.

(** [initialize_config_files]: a file that exists is left alone. *)
Definition initialize_config_files (fs : Files) : Files :=
  {| home_file := match home_file fs with
                  | Missing => Parsed []
                  | f => f
                  end;
     project_file := match project_file fs with
                     | Missing => Parsed default_project_rules
                     | f => f
                     end |}.

(** The keys and the directives of a mapping. *)
Definition keys (config : RuleDocument) : list string := map fst config.

(** A file whose keys raise nothing in [get_rules]. *)
Definition file_ok (f : ConfigFile) : bool :=
  match f with
  | Parsed config => items_ok config
  | _ => true
  end.


(** ** The model on small inputs *)

Example split_every : PyStr.split "_" "every_10_inputs" = ["every"; "10"; "inputs"].
Proof. reflexivity. Qed.

Example split_trailing : PyStr.split "_" "every_" = ["every"; ""].
Proof. reflexivity. Qed.

Example int_plain : PyStr.int "10" = Some 10.
Proof. reflexivity. Qed.

Example int_padded : PyStr.int " +007 " = Some 7.
Proof. reflexivity. Qed.

Example int_negative : PyStr.int "-3" = Some (-3).
Proof. reflexivity. Qed.

Example int_letters : PyStr.int "abc" = None.
Proof. reflexivity. Qed.

Example int_empty : PyStr.int "" = None.
Proof. reflexivity. Qed.

Example int_inner_space : PyStr.int "1 2" = None.
Proof. reflexivity. Qed.

Example contains_inputs : PyStr.contains "_inputs" "every_inputs" = true.
Proof. reflexivity. Qed.

Example scenario_call1 :
  fst (get_rules [scenario_doc] 0 init) = Return ["hi"].
Proof. vm_compute. reflexivity. Qed.

Example scenario_call2 :
  fst (get_rules [scenario_doc] 1 (snd (get_rules [scenario_doc] 0 init)))
  = Return ["even"].
Proof. vm_compute. reflexivity. Qed.

Example scenario_call3 :
  (get_rules [scenario_doc] 2 (after_calls [([scenario_doc], 0); ([scenario_doc], 1)] init)).1
  = Return [].
Proof. vm_compute. reflexivity. Qed.

Example scenario_call4 :
  (get_rules [scenario_doc] 3
     (after_calls [([scenario_doc], 0); ([scenario_doc], 1); ([scenario_doc], 2)] init)).1
  = Return ["even"].
Proof. vm_compute. reflexivity. Qed.

Example empty_document_not_loaded :
  loaded [Missing; Parsed []; Unparsable; Parsed [("first", ["hi"])]] = [[("first", ["hi"])]].
Proof. reflexivity. Qed.

(** ** Keys of the documented form *)

Example inputs_key_3 : inputs_key 3 = "every_3_inputs"%string.
Proof. reflexivity. Qed.

Example minutes_key_60 : minutes_key 60 = "every_60_minutes"%string.
Proof. reflexivity. Qed.

Section DecimalKeys.

Import NilEmpty.

Lemma digits_of_uint_acc (d : Decimal.uint) (acc : positive) :
  PyStr.digits (string_of_uint d) true (Z.pos acc)
  = Some (Z.pos (Pos.of_uint_acc d acc)).
Proof.
  revert acc.
  induction d; intros acc; cbn [string_of_uint PyStr.digits Pos.of_uint_acc];
    [reflexivity | ..];
    match goal with
    | |- context [PyStr.digit ?c] =>
        let v := eval vm_compute in (PyStr.digit c) in
        change (PyStr.digit c) with v
    end; cbv iota beta;
    match goal with
    | |- PyStr.digits _ true ?z = Some (Z.pos (Pos.of_uint_acc _ ?p)) =>
        replace z with (Z.pos p) by lia
    end; apply IHd.
Qed.

Lemma digits_of_uint (d : Decimal.uint) (seen : bool) :
  d <> Decimal.Nil ->
  PyStr.digits (string_of_uint d) seen 0 = Some (Z.of_N (Pos.of_uint d)).
Proof.
  revert seen.
  induction d; intros seen Hd; [congruence | ..];
    cbn [string_of_uint PyStr.digits Pos.of_uint];
    match goal with
    | |- context [PyStr.digit ?c] =>
        let v := eval vm_compute in (PyStr.digit c) in
        change (PyStr.digit c) with v
    end; cbv iota beta.
  1: { change (10 * 0 + 0) with 0.
       destruct d; try (apply IHd; discriminate).
       reflexivity. }
  all: match goal with
       | |- PyStr.digits _ true ?z = _ =>
           let v := eval vm_compute in z in change z with v
       end; rewrite digits_of_uint_acc; reflexivity.
Qed.

Lemma to_uint_not_nil (n : positive) : Pos.to_uint n <> Decimal.Nil.
Proof.
  intros H. pose proof (DecimalPos.Unsigned.of_to n) as E.
  rewrite H in E. discriminate.
Qed.

Lemma lstrip_of_uint (d : Decimal.uint) :
  PyStr.lstrip (string_of_uint d) = string_of_uint d.
Proof. destruct d; reflexivity. Qed.

Lemma signed_of_uint (d : Decimal.uint) :
  PyStr.signed (string_of_uint d) = PyStr.digits (string_of_uint d) false 0.
Proof. destruct d; reflexivity. Qed.

Lemma int_decimal (n : positive) : PyStr.int (decimal n) = Some (Z.pos n).
Proof.
  unfold PyStr.int, decimal.
  rewrite lstrip_of_uint, signed_of_uint, digits_of_uint
    by apply to_uint_not_nil.
  now rewrite DecimalPos.Unsigned.of_to.
Qed.

Lemma split_of_uint (d : Decimal.uint) (rest : string) :
  PyStr.split "_" (string_of_uint d ++ String "_" rest)
  = string_of_uint d :: PyStr.split "_" rest.
Proof. induction d; simpl; rewrite ?IHd; reflexivity. Qed.

Lemma contains_of_uint (sub rest : string) (d : Decimal.uint) :
  PyStr.contains (String "_" sub) (string_of_uint d ++ rest)
  = PyStr.contains (String "_" sub) rest.
Proof.
  induction d; cbn [string_of_uint String.append]; [reflexivity | ..];
    rewrite <- IHd; reflexivity.
Qed.

Lemma prefix_underscore_uint (sub rest : string) (d : Decimal.uint) :
  d <> Decimal.Nil ->
  String.prefix (String "_" (String "i" sub)) (String "_" (string_of_uint d ++ rest)) = false
  /\ String.prefix (String "_" (String "m" sub)) (String "_" (string_of_uint d ++ rest)) = false.
Proof. destruct d; [congruence | ..]; intros _; split; reflexivity. Qed.

End DecimalKeys.

Lemma prefix_empty (s : string) : String.prefix "" s = true.
Proof. destruct s; reflexivity. Qed.

Lemma startswith_every (s : string) :
  PyStr.startswith ("every_" ++ s) "every_" = true.
Proof. unfold PyStr.startswith. simpl. apply prefix_empty. Qed.

Lemma split_every_prefix (s : string) :
  PyStr.split "_" ("every_" ++ s) = "every"%string :: PyStr.split "_" s.
Proof. reflexivity. Qed.

Lemma split_every_piece (n : positive) (rest : string) :
  PyStr.split "_" ("every_" ++ decimal n ++ String "_" rest) !! 1%nat
  = Some (decimal n).
Proof.
  rewrite split_every_prefix. unfold decimal.
  rewrite split_of_uint. reflexivity.
Qed.

Lemma contains_every (sub rest : string) (n : positive) :
  PyStr.contains (String "_" sub) ("every_" ++ decimal n ++ rest)
  = String.prefix (String "_" sub) (String "_" (decimal n ++ rest))
    || PyStr.contains (String "_" sub) rest.
Proof.
  transitivity (String.prefix (String "_" sub) (String "_" (decimal n ++ rest))
                || PyStr.contains (String "_" sub) (decimal n ++ rest)).
  - reflexivity.
  - unfold decimal. now rewrite contains_of_uint.
Qed.

Section KeyFacts.

Variable n : positive.

Lemma startswith_inputs_key : PyStr.startswith (inputs_key n) "every_" = true.
Proof. apply startswith_every. Qed.

Lemma startswith_minutes_key : PyStr.startswith (minutes_key n) "every_" = true.
Proof. apply startswith_every. Qed.

Lemma contains_inputs_inputs_key : PyStr.contains "_inputs" (inputs_key n) = true.
Proof. unfold inputs_key. rewrite contains_every. apply orb_true_r. Qed.

Lemma contains_minutes_minutes_key : PyStr.contains "_minutes" (minutes_key n) = true.
Proof. unfold minutes_key. rewrite contains_every. apply orb_true_r. Qed.

Lemma contains_minutes_inputs_key : PyStr.contains "_minutes" (inputs_key n) = false.
Proof.
  unfold inputs_key. rewrite contains_every. unfold decimal.
  destruct (prefix_underscore_uint "inutes" "_inputs" (Pos.to_uint n) (to_uint_not_nil n))
    as [_ ->].
  reflexivity.
Qed.

Lemma contains_inputs_minutes_key : PyStr.contains "_inputs" (minutes_key n) = false.
Proof.
  unfold minutes_key. rewrite contains_every. unfold decimal.
  destruct (prefix_underscore_uint "nputs" "_minutes" (Pos.to_uint n) (to_uint_not_nil n))
    as [-> _].
  reflexivity.
Qed.

Lemma int_of_inputs_key (self : YakusokuKeeper) :
  int_of_key (inputs_key n) self = (Return (Z.pos n), self).
Proof.
  unfold int_of_key, inputs_key.
  rewrite split_every_piece, int_decimal. reflexivity.
Qed.

Lemma int_of_minutes_key (self : YakusokuKeeper) :
  int_of_key (minutes_key n) self = (Return (Z.pos n), self).
Proof.
  unfold int_of_key, minutes_key.
  rewrite split_every_piece, int_decimal. reflexivity.
Qed.

End KeyFacts.

Section KeyTests.

Variable n : positive.

Lemma piece_int_inputs_key : piece_int (inputs_key n) = Some (Z.pos n).
Proof.
  unfold piece_int, inputs_key. now rewrite split_every_piece, int_decimal.
Qed.

Lemma piece_int_minutes_key : piece_int (minutes_key n) = Some (Z.pos n).
Proof.
  unfold piece_int, minutes_key. now rewrite split_every_piece, int_decimal.
Qed.

Lemma is_input_key_inputs_key : is_input_key (inputs_key n) = true.
Proof.
  unfold is_input_key. now rewrite startswith_inputs_key, contains_inputs_inputs_key.
Qed.

Lemma is_time_key_inputs_key : is_time_key (inputs_key n) = false.
Proof.
  unfold is_time_key. now rewrite startswith_inputs_key, contains_minutes_inputs_key.
Qed.

Lemma is_time_key_minutes_key : is_time_key (minutes_key n) = true.
Proof.
  unfold is_time_key. now rewrite startswith_minutes_key, contains_minutes_minutes_key.
Qed.

Lemma is_input_key_minutes_key : is_input_key (minutes_key n) = false.
Proof.
  unfold is_input_key. now rewrite startswith_minutes_key, contains_inputs_minutes_key.
Qed.

Lemma input_fires_inputs_key (count : Z) :
  input_fires count (inputs_key n) = (count mod Z.pos n =? 0).
Proof.
  unfold input_fires. now rewrite is_input_key_inputs_key, piece_int_inputs_key.
Qed.

Lemma time_fires_inputs_key (t : gmap string Z) (now : Z) :
  time_fires t now (inputs_key n) = false.
Proof. unfold time_fires. now rewrite is_time_key_inputs_key. Qed.

Lemma input_fires_minutes_key (count : Z) : input_fires count (minutes_key n) = false.
Proof. unfold input_fires. now rewrite is_input_key_minutes_key. Qed.

Lemma time_fires_minutes_key (t : gmap string Z) (now : Z) :
  time_fires t now (minutes_key n) = elapsed t now (minutes_key n) (Z.pos n).
Proof.
  unfold time_fires. now rewrite is_time_key_minutes_key, piece_int_minutes_key.
Qed.

Lemma inputs_key_not_first : inputs_key n <> "first"%string.
Proof. discriminate. Qed.

Lemma minutes_key_not_first : minutes_key n <> "first"%string.
Proof. discriminate. Qed.

Lemma key_ok_inputs_key : key_ok (inputs_key n) = true.
Proof.
  unfold key_ok.
  now rewrite is_input_key_inputs_key, is_time_key_inputs_key, piece_int_inputs_key.
Qed.

Lemma key_ok_minutes_key : key_ok (minutes_key n) = true.
Proof.
  unfold key_ok.
  now rewrite is_input_key_minutes_key, is_time_key_minutes_key, piece_int_minutes_key.
Qed.

End KeyTests.

Lemma elapsed_iff (t : gmap string Z) (now : Z) (key : string) (minutes : Z) :
  elapsed t now key minutes = true
  <-> t !! key = None
      \/ exists last, t !! key = Some last /\ minutes * 60 * 1000000 <= now - last.
Proof.
  unfold elapsed, microseconds_per_minute. destruct (t !! key) as [last|].
  - rewrite Z.leb_le. split.
    + intros H. right. exists last. split; [reflexivity | lia].
    + intros [H|(l & [= <-] & H)]; [discriminate | lia].
  - split; [now left | reflexivity].
Qed.

(** ** The loop body, test by test *)

Lemma with_table_same (self : YakusokuKeeper) :
  with_table self (last_executed_time self) = self.
Proof. destruct self; reflexivity. Qed.

Lemma startswith_every_inv (key : string) :
  PyStr.startswith key "every_" = true -> exists s, key = ("every_" ++ s)%string.
Proof.
  unfold PyStr.startswith. intros H.
  do 6 (destruct key as [|? key]; [discriminate H|];
        cbn [String.prefix] in H;
        match type of H with
        | (if ascii_dec ?a ?b then _ else _) = true =>
            destruct (ascii_dec a b) as [<-|]; [|discriminate H]
        end).
  now exists key.
Qed.

Lemma int_of_key_every (key : string) (self : YakusokuKeeper) :
  PyStr.startswith key "every_" = true ->
  int_of_key key self
  = match piece_int key with
    | Some n => (Return n, self)
    | None => (Raise ValueError, self)
    end.
Proof.
  intros [s ->]%startswith_every_inv.
  unfold int_of_key, piece_int. rewrite split_every_prefix.
  destruct (PyStr.split "_" s) as [|piece pieces] eqn:E.
  - destruct s; simpl in E; [discriminate|].
    destruct (Ascii.eqb _ _); [discriminate|].
    destruct (PyStr.split "_" s); discriminate.
  - cbn. now destruct (PyStr.int piece).
Qed.

Lemma input_rule_eq (acc : list string) (key : string) (actions : list string)
    (self : YakusokuKeeper) :
  input_rule acc key actions self
  = if is_input_key key then
      match piece_int key with
      | None => (Raise ValueError, self)
      | Some n =>
          if n =? 0 then (Raise ZeroDivisionError, self)
          else (Return (if input_count self mod n =? 0 then acc ++ actions else acc), self)
      end
    else (Return acc, self).
Proof.
  unfold input_rule, is_input_key.
  destruct (PyStr.startswith key "every_") eqn:Hs; [|reflexivity].
  destruct (PyStr.contains "_inputs" key); [|reflexivity].
  cbn [andb]. unfold mbind, M_bind, bind.
  rewrite int_of_key_every by assumption.
  destruct (piece_int key) as [n|]; [|reflexivity].
  unfold gets, py_mod.
  destruct (n =? 0); [reflexivity|].
  cbn. now destruct (_ =? 0).
Qed.

Lemma time_rule_eq (now : Z) (acc : list string) (key : string) (actions : list string)
    (self : YakusokuKeeper) :
  time_rule now acc key actions self
  = if is_time_key key then
      match piece_int key with
      | None => (Raise ValueError, self)
      | Some minutes =>
          if elapsed (last_executed_time self) now key minutes
          then (Return (acc ++ actions),
                with_table self (<[key := now]> (last_executed_time self)))
          else (Return acc, self)
      end
    else (Return acc, self).
Proof.
  unfold time_rule, is_time_key.
  destruct (PyStr.startswith key "every_") eqn:Hs; [|reflexivity].
  destruct (PyStr.contains "_minutes" key); [|reflexivity].
  cbn [andb]. unfold mbind, M_bind, bind.
  rewrite int_of_key_every by assumption.
  destruct (piece_int key) as [minutes|]; [|reflexivity].
  unfold gets, elapsed.
  destruct (last_executed_time self !! key) as [t|]; [|reflexivity].
  now destruct (_ <=? _).
Qed.

Lemma item_body_ok (now : Z) (acc : list string) (key : string) (actions : list string)
    (self : YakusokuKeeper) :
  key_ok key = true ->
  item_body now acc (key, actions) self
  = (Return (acc ++ fired (input_count self) (last_executed_time self) now (key, actions)),
     with_table self (table_after (last_executed_time self) now key)).
Proof.
  unfold key_ok, item_body, fired, table_after, input_fires, time_fires.
  intros [Hi Ht]%andb_true_iff.
  unfold mbind, M_bind, bind. rewrite input_rule_eq. cbn [fst snd].
  destruct (is_input_key key), (piece_int key) as [n|] eqn:En;
    try discriminate; cbn [andb];
    try (destruct (n =? 0); [discriminate Hi|]); cbn [negb andb];
    try (destruct (_ mod _ =? 0));
    rewrite time_rule_eq, ?En;
    (destruct (is_time_key key); try discriminate; cbn [andb]);
    try (destruct (elapsed _ _ _ _));
    rewrite ?with_table_same, ?app_nil_r, <- ?app_assoc; reflexivity.
Qed.

Lemma item_body_bad (now : Z) (acc : list string) (key : string) (actions : list string)
    (self : YakusokuKeeper) :
  key_ok key = false ->
  exists e, item_body now acc (key, actions) self = (Raise e, self).
Proof.
  unfold key_ok, item_body. unfold mbind, M_bind, bind.
  rewrite input_rule_eq. intros H.
  destruct (is_input_key key), (piece_int key) as [n|] eqn:En;
    cbn [andb negb] in H; try (eexists; reflexivity).
  - destruct (n =? 0); [eexists; reflexivity|].
    cbn [negb andb] in H. rewrite time_rule_eq, En.
    destruct (is_time_key key); discriminate.
  - rewrite time_rule_eq, En. destruct (is_time_key key); discriminate.
  - rewrite time_rule_eq, En.
    destruct (is_time_key key); [eexists; reflexivity | discriminate].
Qed.

(** ** The loops *)

Lemma for_each_app {A B} (l1 l2 : list A) (body : B -> A -> M B) (b : B)
    (self : YakusokuKeeper) :
  for_each (l1 ++ l2) body b self
  = (b' ← for_each l1 body b; for_each l2 body b') self.
Proof.
  revert b self. induction l1 as [|x l1 IH]; intros b self.
  - reflexivity.
  - cbn [app for_each]. unfold mbind, M_bind, bind in *.
    destruct (body b x self) as [[b'|e] self1]; [apply IH | reflexivity].
Qed.

Lemma run_items_app (count now : Z) (l1 l2 : RuleDocument) (table : gmap string Z) :
  run_items count now (l1 ++ l2) table
  = let '(out1, table1) := run_items count now l1 table in
    let '(out2, table2) := run_items count now l2 table1 in
    (out1 ++ out2, table2).
Proof.
  revert table. induction l1 as [|item l1 IH]; intros table; cbn [app run_items].
  - now destruct (run_items count now l2 table).
  - rewrite IH.
    destruct (run_items count now l1 _) as [out1 table1].
    destruct (run_items count now l2 table1) as [out2 table2].
    now rewrite app_assoc.
Qed.

Lemma run_docs_app (count now : Z) (l1 l2 : list RuleDocument) (table : gmap string Z) :
  run_docs count now (l1 ++ l2) table
  = let '(out1, table1) := run_docs count now l1 table in
    let '(out2, table2) := run_docs count now l2 table1 in
    (out1 ++ out2, table2).
Proof.
  revert table. induction l1 as [|d l1 IH]; intros table; cbn [app run_docs].
  - now destruct (run_docs count now l2 table).
  - destruct (run_items count now d table) as [out_d table_d].
    rewrite IH.
    destruct (run_docs count now l1 table_d) as [out1 table1].
    destruct (run_docs count now l2 table1) as [out2 table2].
    now rewrite <- !app_assoc.
Qed.

Lemma for_each_items_ok (now : Z) (items : RuleDocument) (acc : list string)
    (self : YakusokuKeeper) :
  items_ok items = true ->
  for_each items (item_body now) acc self
  = (Return (acc ++ (run_items (input_count self) now items (last_executed_time self)).1),
     with_table self (run_items (input_count self) now items (last_executed_time self)).2).
Proof.
  revert acc self. induction items as [|[key actions] items IH]; intros acc self Hok.
  - cbn. now rewrite app_nil_r, with_table_same.
  - cbn [items_ok forallb fst] in Hok. apply andb_true_iff in Hok as [Hk Hok].
    cbn [for_each run_items fst]. unfold mbind, M_bind, bind.
    rewrite item_body_ok by assumption.
    rewrite IH by assumption. cbn [with_table input_count last_executed_time rules].
    destruct (run_items _ _ items _) as [out table'].
    cbn [fst snd]. now rewrite <- app_assoc.
Qed.

Lemma for_each_items_raise (now : Z) (items : RuleDocument) (acc : list string)
    (self : YakusokuKeeper) :
  items_ok items = false ->
  exists e done rest,
    items = done ++ rest /\ items_ok done = true
    /\ for_each items (item_body now) acc self
       = (Raise e,
          with_table self (run_items (input_count self) now done (last_executed_time self)).2).
Proof.
  revert acc self. induction items as [|[key actions] items IH]; intros acc self Hbad.
  - discriminate.
  - cbn [items_ok forallb fst] in Hbad.
    destruct (key_ok key) eqn:Hk.
    + cbn [andb] in Hbad. cbn [for_each]. unfold mbind, M_bind, bind.
      rewrite item_body_ok by assumption.
      destruct (IH (acc ++ fired (input_count self) (last_executed_time self) now (key, actions))
                   (with_table self (table_after (last_executed_time self) now key)) Hbad)
        as (e & done & rest & -> & Hdone & ->).
      exists e, ((key, actions) :: done), rest. split; [reflexivity|]. split.
      * cbn [items_ok forallb fst]. now rewrite Hk.
      * cbn [with_table input_count last_executed_time rules run_items fst].
        now destruct (run_items _ _ done _).
    + destruct (item_body_bad now acc key actions self Hk) as [e He].
      exists e, [], ((key, actions) :: items). split; [reflexivity|]. split; [reflexivity|].
      cbn [for_each]. unfold mbind, M_bind, bind. rewrite He. cbn.
      now rewrite with_table_same.
Qed.

Lemma rule_set_body_eq (now : Z) (acc : list string) (rule_set : RuleDocument)
    (self : YakusokuKeeper) :
  rule_set_body now acc rule_set self
  = for_each rule_set (item_body now)
      (if input_count self =? 1 then acc ++ get "first" rule_set else acc) self.
Proof. reflexivity. Qed.

Lemma for_each_docs_ok (now : Z) (docs : list RuleDocument) (acc : list string)
    (self : YakusokuKeeper) :
  keys_ok docs = true ->
  for_each docs (rule_set_body now) acc self
  = (Return (acc ++ (run_docs (input_count self) now docs (last_executed_time self)).1),
     with_table self (run_docs (input_count self) now docs (last_executed_time self)).2).
Proof.
  revert acc self. induction docs as [|d docs IH]; intros acc self Hok.
  - cbn. now rewrite app_nil_r, with_table_same.
  - cbn [keys_ok forallb] in Hok. apply andb_true_iff in Hok as [Hd Hok].
    cbn [for_each run_docs]. unfold mbind, M_bind, bind.
    rewrite rule_set_body_eq, for_each_items_ok by assumption.
    rewrite IH by assumption. cbn [with_table input_count last_executed_time rules].
    destruct (run_items _ _ d _) as [out_d table_d].
    destruct (run_docs _ _ docs _) as [out table'].
    cbn [fst snd]. destruct (input_count self =? 1); now rewrite <- !app_assoc.
Qed.

(** A raising loop leaves the table that the items before the faulty key
    produce: the documents before the faulty one, and the faulty one cut
    before the key. *)
Lemma for_each_docs_raise (now : Z) (docs : list RuleDocument) (acc : list string)
    (self : YakusokuKeeper) :
  keys_ok docs = false ->
  exists e before cut rest after,
    docs = before ++ (cut ++ rest) :: after
    /\ keys_ok (before ++ [cut]) = true
    /\ for_each docs (rule_set_body now) acc self
       = (Raise e,
          with_table self
            (run_docs (input_count self) now (before ++ [cut]) (last_executed_time self)).2).
Proof.
  revert acc self. induction docs as [|d docs IH]; intros acc self Hbad.
  - discriminate.
  - cbn [keys_ok forallb] in Hbad. fold (items_ok d) in Hbad.
    destruct (items_ok d) eqn:Hd.
    + cbn [andb] in Hbad. cbn [for_each]. unfold mbind, M_bind, bind.
      rewrite rule_set_body_eq, for_each_items_ok by assumption.
      match goal with
      | |- context [for_each docs _ ?a ?s] =>
          destruct (IH a s Hbad) as (e & before & cut & rest & after & -> & Hok & ->)
      end.
      exists e, (d :: before), cut, rest, after. split; [reflexivity|]. split.
      * cbn [app keys_ok forallb]. fold (items_ok d). now rewrite Hd.
      * cbn [with_table input_count last_executed_time rules app run_docs].
        destruct (run_items _ _ d _) as [out_d table_d].
        now destruct (run_docs _ _ (before ++ [cut]) _).
    + destruct (for_each_items_raise now d
                  (if input_count self =? 1 then acc ++ get "first" d else acc) self Hd)
        as (e & cut & rest & -> & Hcut & He).
      exists e, [], cut, rest, docs. split; [reflexivity|]. split.
      * cbn [app keys_ok forallb]. fold (items_ok cut). now rewrite Hcut.
      * cbn [for_each]. unfold mbind, M_bind, bind.
        rewrite rule_set_body_eq, He. cbn [app run_docs].
        now destruct (run_items _ _ cut _).
Qed.

Lemma get_rules_eq (files : list ConfigFile) (now : Z) (self : YakusokuKeeper) :
  get_rules files now self
  = for_each (loaded files) (rule_set_body now) [] (entered files self).
Proof. reflexivity. Qed.

Lemma get_rules_ok (files : list ConfigFile) (now : Z) (self : YakusokuKeeper) :
  keys_ok (loaded files) = true ->
  get_rules files now self
  = (Return (run_docs (input_count self + 1) now (loaded files) (last_executed_time self)).1,
     with_table (entered files self)
       (run_docs (input_count self + 1) now (loaded files) (last_executed_time self)).2).
Proof. intros Hok. rewrite get_rules_eq. now rewrite for_each_docs_ok. Qed.

Lemma get_rules_raise (files : list ConfigFile) (now : Z) (self : YakusokuKeeper) :
  keys_ok (loaded files) = false ->
  exists e before cut rest after,
    loaded files = before ++ (cut ++ rest) :: after
    /\ keys_ok (before ++ [cut]) = true
    /\ get_rules files now self
       = (Raise e,
          with_table (entered files self)
            (run_docs (input_count self + 1) now (before ++ [cut]) (last_executed_time self)).2).
Proof.
  intros Hbad. rewrite get_rules_eq.
  exact (for_each_docs_raise now (loaded files) [] (entered files self) Hbad).
Qed.

Lemma get_rules_returns (files : list ConfigFile) (now : Z) (self self' : YakusokuKeeper)
    (res : list string) :
  get_rules files now self = (Return res, self') ->
  keys_ok (loaded files) = true
  /\ res = (run_docs (input_count self + 1) now (loaded files) (last_executed_time self)).1
  /\ self' = with_table (entered files self)
               (run_docs (input_count self + 1) now (loaded files) (last_executed_time self)).2.
Proof.
  intros H. destruct (keys_ok (loaded files)) eqn:Hok.
  - rewrite get_rules_ok in H by assumption. now inversion H.
  - destruct (get_rules_raise files now self Hok) as (e & ? & ? & ? & ? & _ & _ & He).
    rewrite He in H. discriminate.
Qed.

(** ** What the loops return *)

Lemma has_directive_In (x : string) (item : string * list string) :
  has_directive x item = true <-> In x item.2.
Proof.
  unfold has_directive. rewrite existsb_exists. split.
  - intros (y & Hy & ->%String.eqb_eq). exact Hy.
  - intros Hx. exists x. split; [exact Hx | apply String.eqb_refl].
Qed.

Lemma get_In (key x : string) (rule_set : RuleDocument) :
  In x (get key rule_set) -> exists actions, In (key, actions) rule_set /\ In x actions.
Proof.
  induction rule_set as [|[k v] rest IH]; cbn [get]; [intros []|].
  destruct (String.eqb k key) eqn:E.
  - apply String.eqb_eq in E as ->. intros Hx. exists v. split; [now left | exact Hx].
  - intros (a & Ha & Hx)%IH. exists a. split; [now right | exact Hx].
Qed.

Lemma run_items_out_In (count now : Z) (x : string) (items : RuleDocument)
    (table : gmap string Z) :
  In x (run_items count now items table).1 ->
  exists item table', In item items /\ In x (fired count table' now item).
Proof.
  revert table. induction items as [|item items IH]; intros table; cbn [run_items].
  - intros [].
  - destruct (run_items count now items _) as [out table'] eqn:E. cbn [fst].
    intros [Hx|Hx]%in_app_iff.
    + exists item, table. split; [now left | exact Hx].
    + specialize (IH (table_after table now item.1)). rewrite E in IH.
      destruct (IH Hx) as (item' & t' & Hin & Hf).
      exists item', t'. split; [now right | exact Hf].
Qed.

Lemma run_docs_out_In (count now : Z) (x : string) (docs : list RuleDocument)
    (table : gmap string Z) :
  In x (run_docs count now docs table).1 ->
  (count = 1 /\ exists d, In d docs /\ In x (get "first" d))
  \/ exists d item table', In d docs /\ In item d /\ In x (fired count table' now item).
Proof.
  revert table. induction docs as [|d docs IH]; intros table; cbn [run_docs].
  - intros [].
  - destruct (run_items count now d table) as [out_d table_d] eqn:Ed.
    destruct (run_docs count now docs table_d) as [out table'] eqn:E. cbn [fst].
    intros [Hx|[Hx|Hx]%in_app_iff]%in_app_iff.
    + left. destruct (Z.eqb_spec count 1) as [->|]; [|destruct Hx].
      split; [reflexivity|]. exists d. split; [now left | exact Hx].
    + right. pose proof (run_items_out_In count now x d table) as H.
      rewrite Ed in H. destruct (H Hx) as (item & t' & Hin & Hf).
      exists d, item, t'. split; [now left | now split].
    + specialize (IH table_d). rewrite E in IH.
      destruct (IH Hx) as [(Hc & d' & Hd & Hf) | (d' & item & t' & Hd & Hin & Hf)].
      * left. split; [exact Hc|]. exists d'. split; [now right | exact Hf].
      * right. exists d', item, t'. split; [now right | now split].
Qed.



Lemma run_docs_first_incl (now : Z) (docs : list RuleDocument) (table : gmap string Z)
    (d : RuleDocument) :
  In d docs -> incl (get "first" d) (run_docs 1 now docs table).1.
Proof.
  revert table. induction docs as [|d' docs IH]; intros table; [intros []|].
  intros [->|Hd] x Hx; cbn [run_docs];
    destruct (run_items 1 now _ table) as [out_d table_d] eqn:Ed;
    destruct (run_docs 1 now docs table_d) as [out table'] eqn:E; cbn [fst];
    apply in_app_iff.
  - now left.
  - right. apply in_app_iff. right. specialize (IH table_d Hd x Hx). now rewrite E in IH.
Qed.

(** ** What the loops do to the table *)

Lemma time_fires_lookup (t t' : gmap string Z) (now : Z) (key : string) :
  t !! key = t' !! key -> time_fires t now key = time_fires t' now key.
Proof. unfold time_fires, elapsed. now intros ->. Qed.

Lemma table_after_other (t : gmap string Z) (now : Z) (key k : string) :
  key <> k -> table_after t now key !! k = t !! k.
Proof.
  intros Hne. unfold table_after.
  destruct (time_fires t now key); [now apply lookup_insert_ne | reflexivity].
Qed.

Lemma table_after_same (t : gmap string Z) (now : Z) (key : string) :
  table_after t now key !! key = if time_fires t now key then Some now else t !! key.
Proof.
  unfold table_after.
  destruct (time_fires t now key); [apply lookup_insert_eq | reflexivity].
Qed.

Lemma table_after_now (t : gmap string Z) (now : Z) (key k : string) :
  t !! k = Some now -> table_after t now key !! k = Some now.
Proof.
  intros H. destruct (decide (key = k)) as [->|Hne].
  - rewrite table_after_same. now destruct (time_fires t now k).
  - now rewrite table_after_other.
Qed.

Lemma run_items_now (count now : Z) (items : RuleDocument) (t : gmap string Z) (k : string) :
  t !! k = Some now -> (run_items count now items t).2 !! k = Some now.
Proof.
  revert t. induction items as [|item items IH]; intros t Ht; cbn [run_items]; [exact Ht|].
  specialize (IH (table_after t now item.1) (table_after_now t now item.1 k Ht)).
  now destruct (run_items count now items _).
Qed.

Lemma run_docs_now (count now : Z) (docs : list RuleDocument) (t : gmap string Z) (k : string) :
  t !! k = Some now -> (run_docs count now docs t).2 !! k = Some now.
Proof.
  revert t. induction docs as [|d docs IH]; intros t Ht; cbn [run_docs]; [exact Ht|].
  pose proof (run_items_now count now d t k Ht) as Hd.
  destruct (run_items count now d t) as [out_d table_d].
  specialize (IH table_d Hd). now destruct (run_docs count now docs table_d).
Qed.

Lemma run_items_quiet (count now : Z) (items : RuleDocument) (t : gmap string Z) (k : string) :
  Forall (fun item : string * list string => item.1 = k -> time_fires t now k = false) items ->
  (run_items count now items t).2 !! k = t !! k.
Proof.
  revert t. induction items as [|item items IH]; intros t Hq; cbn [run_items]; [reflexivity|].
  inversion Hq as [|? ? Hitem Hrest]; subst.
  assert (Hk : table_after t now item.1 !! k = t !! k).
  { destruct (decide (item.1 = k)) as [E|Hne].
    - rewrite E, table_after_same, (Hitem E). reflexivity.
    - now apply table_after_other. }
  specialize (IH (table_after t now item.1)).
  destruct (run_items count now items _) as [out t']. cbn [snd] in *.
  rewrite IH; [exact Hk|].
  eapply Forall_impl; [exact Hrest|]. cbn. intros item' H E.
  rewrite <- (H E). now apply time_fires_lookup.
Qed.

Lemma run_docs_quiet (count now : Z) (docs : list RuleDocument) (t : gmap string Z) (k : string) :
  Forall (Forall (fun item : string * list string =>
                    item.1 = k -> time_fires t now k = false)) docs ->
  (run_docs count now docs t).2 !! k = t !! k.
Proof.
  revert t. induction docs as [|d docs IH]; intros t Hq; cbn [run_docs]; [reflexivity|].
  inversion Hq as [|? ? Hd Hrest]; subst.
  pose proof (run_items_quiet count now d t k Hd) as Hk.
  destruct (run_items count now d t) as [out_d table_d]. cbn [snd] in Hk.
  specialize (IH table_d).
  destruct (run_docs count now docs table_d) as [out t']. cbn [snd] in *.
  rewrite IH; [exact Hk|].
  eapply Forall_impl; [exact Hrest|]. cbn. intros d' Hd'.
  eapply Forall_impl; [exact Hd'|]. cbn. intros item' H E.
  rewrite <- (H E). now apply time_fires_lookup.
Qed.

Lemma no_key_quiet (k : string) (docs : list RuleDocument) (P : Prop) :
  no_key k docs = true ->
  Forall (Forall (fun item : string * list string => item.1 = k -> P)) docs.
Proof.
  unfold no_key. rewrite forallb_forall. intros H.
  apply Forall_forall. intros d Hd%list_elem_of_In.
  apply Forall_forall. intros item Hitem%list_elem_of_In E.
  specialize (H d Hd). rewrite forallb_forall in H. specialize (H item Hitem).
  rewrite E, String.eqb_refl in H. discriminate.
Qed.

(** ** One item among the loaded documents *)

Lemma run_docs_split (count now : Z) (before : list RuleDocument) (d_pre : RuleDocument)
    (item : string * list string) (d_post : RuleDocument) (after : list RuleDocument)
    (t : gmap string Z) :
  let t1 := (run_docs count now before t).2 in
  let tp := (run_items count now d_pre t1).2 in
  let tq := (run_items count now d_post (table_after tp now item.1)).2 in
  run_docs count now (before ++ (d_pre ++ item :: d_post) :: after) t
  = ((run_docs count now before t).1
     ++ (if count =? 1 then get "first" (d_pre ++ item :: d_post) else [])
     ++ (run_items count now d_pre t1).1
     ++ fired count tp now item
     ++ (run_items count now d_post (table_after tp now item.1)).1
     ++ (run_docs count now after tq).1,
     (run_docs count now after tq).2).
Proof.
  cbn zeta. rewrite run_docs_app.
  destruct (run_docs count now before t) as [o1 t1]. cbn [run_docs fst snd].
  rewrite run_items_app.
  destruct (run_items count now d_pre t1) as [op tp]. cbn [run_items fst snd].
  destruct (run_items count now d_post _) as [oq tq]. cbn [fst snd].
  destruct (run_docs count now after tq) as [oa ta]. cbn [fst snd].
  now rewrite <- !app_assoc.
Qed.

Lemma items_no_directive (count now : Z) (x : string) (items : RuleDocument)
    (t : gmap string Z) :
  forallb (fun item => negb (has_directive x item)) items = true ->
  ~ In x (run_items count now items t).1.
Proof.
  intros Hno (item & t' & Hin & Hf)%run_items_out_In.
  rewrite forallb_forall in Hno. specialize (Hno item Hin).
  assert (Hx : In x item.2).
  { unfold fired in Hf. apply in_app_iff in Hf as [Hf|Hf];
      [destruct (input_fires count item.1) | destruct (time_fires t' now item.1)];
      now try destruct Hf. }
  apply has_directive_In in Hx. rewrite Hx in Hno. discriminate.
Qed.

Lemma fired_In (count now : Z) (t : gmap string Z) (x : string) (item : string * list string) :
  In x (fired count t now item) ->
  In x item.2 /\ (input_fires count item.1 = true \/ time_fires t now item.1 = true).
Proof.
  unfold fired. intros [Hf|Hf]%in_app_iff.
  - destruct (input_fires count item.1); [|destruct Hf]. split; [exact Hf | now left].
  - destruct (time_fires t now item.1); [|destruct Hf]. split; [exact Hf | now right].
Qed.

Lemma docs_no_directive (count now : Z) (x : string) (docs : list RuleDocument)
    (t : gmap string Z) :
  no_directive x docs = true -> ~ In x (run_docs count now docs t).1.
Proof.
  unfold no_directive. rewrite forallb_forall. intros Hno H.
  apply run_docs_out_In in H
    as [(_ & d & Hd & (a & Hin & Hx)%get_In) | (d & item & t' & Hd & Hin & [Hx _]%fired_In)].
  - specialize (Hno d Hd). rewrite forallb_forall in Hno. specialize (Hno _ Hin).
    apply (has_directive_In x ("first"%string, a)) in Hx. rewrite Hx in Hno. discriminate.
  - specialize (Hno d Hd). rewrite forallb_forall in Hno. specialize (Hno _ Hin).
    apply has_directive_In in Hx. rewrite Hx in Hno. discriminate.
Qed.

Lemma no_directive_split (x : string) (before : list RuleDocument) (d_pre d_post : RuleDocument)
    (after : list RuleDocument) :
  no_directive x (before ++ (d_pre ++ d_post) :: after) = true ->
  no_directive x before = true
  /\ forallb (fun item => negb (has_directive x item)) d_pre = true
  /\ forallb (fun item => negb (has_directive x item)) d_post = true
  /\ no_directive x after = true.
Proof.
  unfold no_directive. rewrite forallb_app. cbn [forallb]. rewrite forallb_app.
  rewrite !andb_true_iff. tauto.
Qed.

Lemma no_key_split (k : string) (before : list RuleDocument) (d_pre d_post : RuleDocument)
    (after : list RuleDocument) :
  no_key k (before ++ (d_pre ++ d_post) :: after) = true ->
  no_key k before = true
  /\ forallb (fun item : string * list string => negb (String.eqb item.1 k)) d_pre = true.
Proof.
  unfold no_key. rewrite forallb_app. cbn [forallb]. rewrite forallb_app.
  rewrite !andb_true_iff. tauto.
Qed.

Lemma first_of_split (x key : string) (d_pre d_post : RuleDocument) (actions : list string) :
  key <> "first"%string ->
  forallb (fun item => negb (has_directive x item)) d_pre = true ->
  forallb (fun item => negb (has_directive x item)) d_post = true ->
  ~ In x (get "first" (d_pre ++ (key, actions) :: d_post)).
Proof.
  intros Hk Hpre Hpost (a & Hin & Hx)%get_In.
  rewrite forallb_forall in Hpre, Hpost.
  apply (has_directive_In x ("first"%string, a)) in Hx.
  apply in_app_iff in Hin as [Hin|[E|Hin]].
  - specialize (Hpre _ Hin). rewrite Hx in Hpre. discriminate.
  - inversion E. congruence.
  - specialize (Hpost _ Hin). rewrite Hx in Hpost. discriminate.
Qed.

(** Where a directive of one item only can be in what the loops return. *)
Lemma sole_directive_In (count now : Z) (x key : string) (actions : list string)
    (before : list RuleDocument) (d_pre d_post : RuleDocument) (after : list RuleDocument)
    (t : gmap string Z) :
  key <> "first"%string ->
  no_directive x (before ++ (d_pre ++ d_post) :: after) = true ->
  In x (run_docs count now (before ++ (d_pre ++ (key, actions) :: d_post) :: after) t).1
  <-> In x (fired count (run_items count now d_pre (run_docs count now before t).2).2
              now (key, actions)).
Proof.
  intros Hk (Hb & Hpre & Hpost & Ha)%no_directive_split.
  rewrite run_docs_split. cbn [fst]. rewrite !in_app_iff.
  pose proof (docs_no_directive count now x before t Hb).
  pose proof (items_no_directive count now x d_pre (run_docs count now before t).2 Hpre).
  pose proof (first_of_split x key d_pre d_post actions Hk Hpre Hpost).
  split; [|tauto].
  intros [?|[Hf|[?|[?|[Hq|Hr]]]]]; try tauto.
  - destruct (count =? 1); [tauto | destruct Hf].
  - now apply items_no_directive in Hq.
  - now apply docs_no_directive in Hr.
Qed.

Lemma table_before_item (count now : Z) (k : string)
    (before : list RuleDocument) (d_pre : RuleDocument) (t : gmap string Z) :
  no_key k before = true ->
  forallb (fun item : string * list string => negb (String.eqb item.1 k)) d_pre = true ->
  (run_items count now d_pre (run_docs count now before t).2).2 !! k = t !! k.
Proof.
  intros Hb Hpre.
  rewrite run_items_quiet.
  - apply run_docs_quiet. now apply no_key_quiet.
  - pose proof (no_key_quiet k [d_pre]
                  (time_fires (run_docs count now before t).2 now k = false)) as H.
    unfold no_key in H. cbn [forallb] in H. rewrite Hpre in H.
    specialize (H eq_refl). now inversion H.
Qed.

(** ** Reset *)

(** C6. [reset] sets the counter to 0 and empties the table of last
    executions, and leaves the rules alone; a second [reset], or any number
    of them, changes nothing more; and the [get_rules] that follows a [reset]
    returns what the first [get_rules] of a new object returns on the same
    files and clock, and leaves the same object. *)
Theorem reset_idempotent_and_fresh (self : YakusokuKeeper) :
  reset self
  = (Return tt, {| input_count := 0; last_executed_time := ∅; rules := rules self |})
  /\ (forall n : nat,
        Nat.iter (S n) (fun object => (reset object).2) self = (reset self).2)
  /\ (forall files now,
        get_rules files now (reset self).2 = get_rules files now init).
Proof.
  split; [reflexivity|]. split.
  - induction n as [|n IH]; [reflexivity|].
    change (Nat.iter (S (S n)) ?f self) with (f (Nat.iter (S n) f self)).
    now rewrite IH.
  - reflexivity.
Qed.

(** ** Keys that make the call raise *)

(** C10. A document whose first key is [every_0_inputs] makes the call end in
    a division by zero, whatever the counter, the clock and the other keys
    and files; and whenever [get_rules] returns, no key on which the
    input-count test is made reads as the integer 0. *)
Theorem every_0_inputs_divides_by_zero :
  (forall actions items files now self,
      (get_rules (Parsed (("every_0_inputs", actions) :: items) :: files) now self).1
      = Raise ZeroDivisionError)
  /\ (forall files now self res self',
        get_rules files now self = (Return res, self') ->
        forall d key actions n,
          In d (loaded files) -> In (key, actions) d ->
          is_input_key key = true -> piece_int key = Some n -> n <> 0).
Proof.
  split.
  - intros actions items files now self.
    rewrite get_rules_eq. cbn [loaded for_each]. unfold mbind, M_bind, bind.
    rewrite rule_set_body_eq. cbn [for_each]. unfold mbind, M_bind, bind.
    unfold item_body. unfold mbind, M_bind, bind. now rewrite input_rule_eq.
  - intros files now self res self' (Hok & _ & _)%get_rules_returns d key actions n Hd Hin Hi Hn.
    unfold keys_ok in Hok. rewrite forallb_forall in Hok. specialize (Hok d Hd).
    unfold items_ok in Hok. rewrite forallb_forall in Hok. specialize (Hok _ Hin).
    cbn [fst] in Hok. unfold key_ok in Hok. rewrite Hi, Hn in Hok.
    intros ->. discriminate.
Qed.

Lemma every_0_inputs_divides_by_zero_witness :
  (get_rules [Parsed [("every_0_inputs", ["A"])]] 0 init).1 = Raise ZeroDivisionError
  /\ 5 <> 0.
Proof.
  destruct every_0_inputs_divides_by_zero as [Hraise Hreturn]. split.
  - apply Hraise.
  - apply (Hreturn [Parsed [("every_5_inputs", ["A"])]] 0 init
             [] (with_table (entered [Parsed [("every_5_inputs", ["A"])]] init) ∅)
             eq_refl [("every_5_inputs", ["A"])] "every_5_inputs"
             ["A"] 5).
    + now left.
    + now left.
    + reflexivity.
    + reflexivity.
Defined.

(** C4, as the code has it.  A key that fails to read as an integer is not
    skipped: here the call raises [ValueError] at [every_abc_inputs], on the
    first call and on the second, and [Y] is never returned. *)
Lemma malformed_key_not_skipped :
  let files := [Parsed [("every_abc_inputs", ["X"]); ("every_2_inputs", ["Y"])]] in
  (get_rules files 0 init).1 = Raise ValueError
  /\ (get_rules files 1 (after_calls [(files, 0)] init)).1 = Raise ValueError.
Proof. split; vm_compute; reflexivity. Qed.

(** C4, amended.  [get_rules] returns exactly when every key on which a test
    is made reads as an integer, not 0 for the input-count test; otherwise it
    raises.  With the valid key alone, [Y] is returned on call 2. *)
Theorem get_rules_returns_iff_keys_ok (files : list ConfigFile) (now : Z)
    (self : YakusokuKeeper) :
  ((exists res self', get_rules files now self = (Return res, self'))
   <-> keys_ok (loaded files) = true)
  /\ ((exists e self', get_rules files now self = (Raise e, self'))
      <-> keys_ok (loaded files) = false)
  /\ (get_rules [Parsed [("every_2_inputs", ["Y"])]] now
        (after_calls [(files, now)] (reset self).2)).1 = Return ["Y"].
Proof.
  split; [|split].
  - split.
    + intros (res & self' & H). now apply get_rules_returns in H.
    + intros Hok. rewrite get_rules_ok by assumption. eauto.
  - split.
    + intros (e & self' & H). destruct (keys_ok (loaded files)) eqn:Hok; [|reflexivity].
      rewrite get_rules_ok in H by assumption. discriminate.
    + intros Hbad. destruct (get_rules_raise files now self Hbad)
        as (e & ? & ? & ? & ? & _ & _ & He). rewrite He. eauto.
  - cbn [after_calls fold_left fst snd].
    rewrite get_rules_ok by reflexivity. cbn [fst].
    assert (Hc : input_count (get_rules files now (reset self).2).2 = 1).
    { destruct (keys_ok (loaded files)) eqn:Hok.
      - rewrite get_rules_ok by assumption. reflexivity.
      - destruct (get_rules_raise files now (reset self).2 Hok)
          as (e & ? & ? & ? & ? & _ & _ & He). rewrite He. reflexivity. }
    rewrite Hc. reflexivity.
Qed.

(** ** Series of calls *)

Lemma get_rules_count (files : list ConfigFile) (now : Z) (self : YakusokuKeeper) :
  input_count (get_rules files now self).2 = input_count self + 1.
Proof.
  destruct (keys_ok (loaded files)) eqn:Hok.
  - now rewrite get_rules_ok.
  - destruct (get_rules_raise files now self Hok) as (e & ? & ? & ? & ? & _ & _ & He).
    now rewrite He.
Qed.

Lemma after_calls_count (calls : list (list ConfigFile * Z)) (self : YakusokuKeeper) :
  input_count (after_calls calls self) = input_count self + Z.of_nat (length calls).
Proof.
  unfold after_calls. revert self.
  induction calls as [|call calls IH]; intros self; cbn [fold_left length].
  - lia.
  - rewrite IH, get_rules_count. lia.
Qed.

Lemma init_is_reset : (reset init).2 = init.
Proof. reflexivity. Qed.

(** ** The input-count trigger *)

Lemma item_body_inputs_key (n : positive) (now : Z) (acc actions : list string)
    (self : YakusokuKeeper) :
  item_body now acc (inputs_key n, actions) self
  = (Return (if input_count self mod Z.pos n =? 0 then acc ++ actions else acc), self).
Proof.
  rewrite item_body_ok by apply key_ok_inputs_key.
  unfold fired, table_after. cbn [fst snd].
  rewrite input_fires_inputs_key, time_fires_inputs_key, with_table_same.
  destruct (_ mod _ =? 0); now rewrite !app_nil_r.
Qed.

(** C2. Whenever the loop of [get_rules] reaches a key [every_<n>_inputs], it
    appends the directives of the key exactly when the counter, incremented at
    the start of the call, is a multiple of [n], and raises nothing.  For the
    whole call, after a [reset] and any series [calls] of earlier calls, on
    documents where [x] is a directive of one item with that key and of no
    other item: when the call returns, [x] is in the result exactly when the
    number of the call, [length calls + 1], is a positive multiple of [n]. *)
Theorem inputs_key_fires_on_multiples (n : positive) (now : Z) :
  (forall (acc actions : list string) (self : YakusokuKeeper),
      item_body now acc (inputs_key n, actions) self
      = (Return (if input_count self mod Z.pos n =? 0 then acc ++ actions else acc), self))
  /\ (forall (calls : list (list ConfigFile * Z)) (self0 : YakusokuKeeper)
        (files : list ConfigFile)
        (before : list RuleDocument) (d_pre : RuleDocument) (actions : list string)
        (d_post : RuleDocument) (after : list RuleDocument)
        (x : string) (res : list string) (self' : YakusokuKeeper),
        loaded files = before ++ (d_pre ++ (inputs_key n, actions) :: d_post) :: after ->
        In x actions ->
        no_directive x (before ++ (d_pre ++ d_post) :: after) = true ->
        get_rules files now (after_calls calls (reset self0).2) = (Return res, self') ->
        (In x res <-> exists m, 0 < m /\ Z.of_nat (length calls) + 1 = m * Z.pos n)
        /\ input_count self' = Z.of_nat (length calls) + 1).
Proof.
  split; [intros; apply item_body_inputs_key|].
  intros calls self0 files before d_pre actions d_post after x res self'
    Hdocs Hx Hno (_ & -> & ->)%get_rules_returns.
  cbn [reset modify snd input_count with_table entered].
  rewrite !after_calls_count. cbn [input_count].
  rewrite Z.add_0_l. split; [|reflexivity].
  rewrite Hdocs, (sole_directive_In _ _ _ _ _ _ _ _ _ _ (inputs_key_not_first n) Hno).
  unfold fired. cbn [fst snd].
  rewrite input_fires_inputs_key, time_fires_inputs_key, app_nil_r.
  set (c := Z.of_nat (length calls) + 1).
  destruct (Z.eqb_spec (c mod Z.pos n) 0) as [E|E].
  - split; [intros _ | intros _; exact Hx].
    apply Z.mod_divide in E as [m Hm]; [|lia].
    exists m. split; [nia | exact Hm].
  - split; [intros [] | intros (m & _ & Hm)].
    apply E, Z.mod_divide; [lia|]. now exists m.
Qed.

(** With [every_3_inputs: [A]], the third call after a reset returns [A]. *)
Lemma inputs_key_fires_on_multiples_witness :
  let files := [Parsed [("first", ["hi"]); ("every_3_inputs", ["A"])]] in
  let self := after_calls [(files, 0); (files, 10)] (reset init).2 in
  (In "A" ["A"] <-> exists m, 0 < m /\ Z.of_nat 2 + 1 = m * 3)
  /\ input_count (get_rules files 20 self).2 = Z.of_nat 2 + 1.
Proof.
  intros files self.
  destruct (inputs_key_fires_on_multiples 3 20) as [_ Hcall].
  apply (Hcall [(files, 0); (files, 10)] init files
           [] [("first", ["hi"])] ["A"] [] [] "A" ["A"] (get_rules files 20 self).2).
  - reflexivity.
  - now left.
  - reflexivity.
  - apply injective_projections; [vm_compute; reflexivity | reflexivity].
Defined.

(** ** The [first] directives *)

(** C3. In the call of [get_rules] that comes after a [reset] (or after the
    construction of the object, [init] being its own reset) and any series
    [calls] of earlier calls: when there was no earlier call, the result has
    every directive listed under [first] in every loaded document; when there
    was one, the result has no directive that the documents list under
    [first] only; and the counter then reads the number of the call. *)
Theorem first_only_on_first_call
    (calls : list (list ConfigFile * Z)) (self0 : YakusokuKeeper)
    (files : list ConfigFile) (now : Z) (res : list string) (self' : YakusokuKeeper) :
  get_rules files now (after_calls calls (reset self0).2) = (Return res, self') ->
  (calls = [] ->
   forall d x, In d (loaded files) -> In x (get "first" d) -> In x res)
  /\ (calls <> [] ->
      forall x, only_under "first" x (loaded files) = true -> ~ In x res)
  /\ input_count self' = Z.of_nat (length calls) + 1.
Proof.
  intros (_ & -> & ->)%get_rules_returns.
  cbn [reset modify snd input_count with_table entered].
  rewrite !after_calls_count. cbn [input_count]. rewrite Z.add_0_l.
  split; [|split; [|reflexivity]].
  - intros -> d x Hd Hx. cbn [length Z.of_nat Z.add].
    now apply (run_docs_first_incl now (loaded files) _ d Hd).
  - intros Hcalls x Honly H.
    apply run_docs_out_In in H
      as [(Hc & _) | (d & item & t' & Hd & Hin & [Hx Hf]%fired_In)].
    + destruct calls; [congruence | cbn [length] in Hc; lia].
    + unfold only_under in Honly. rewrite forallb_forall in Honly.
      specialize (Honly d Hd). rewrite forallb_forall in Honly.
      specialize (Honly item Hin).
      apply has_directive_In in Hx. rewrite Hx, orb_false_r in Honly.
      apply String.eqb_eq in Honly. rewrite Honly in Hf.
      destruct Hf as [Hf|Hf]; vm_compute in Hf; discriminate.
Qed.

Lemma first_only_on_first_call_witness :
  let files := [Parsed [("first", ["hi"]); ("every_2_inputs", ["even"])]] in
  ((get_rules files 0 (after_calls [] (reset init).2)).1 = Return ["hi"]
   /\ In "hi" ["hi"])
  /\ ((get_rules files 1 (after_calls [(files, 0)] (reset init).2)).1
      = Return ["even"]
      /\ ~ In "hi" ["even"]).
Proof.
  intros files. split; (split; [vm_compute; reflexivity|]).
  - destruct (first_only_on_first_call [] init files 0 ["hi"]
                (get_rules files 0 (after_calls [] (reset init).2)).2) as (Hfirst & _ & _).
    + apply injective_projections; [vm_compute; reflexivity | reflexivity].
    + apply (Hfirst eq_refl [("first", ["hi"]); ("every_2_inputs", ["even"])]).
      * now left.
      * now left.
  - destruct (first_only_on_first_call [(files, 0)] init files 1 ["even"]
                (get_rules files 1 (after_calls [(files, 0)] (reset init).2)).2)
      as (_ & Hlater & _).
    + apply injective_projections; [vm_compute; reflexivity | reflexivity].
    + apply Hlater; [discriminate | reflexivity].
Defined.

(** ** The time trigger *)

(** The loop body on a key [every_<n>_minutes], in whatever state the loop
    reaches it. *)
Lemma item_body_minutes_key (n : positive) (now : Z) (acc actions : list string)
    (self : YakusokuKeeper) :
  item_body now acc (minutes_key n, actions) self
  = if elapsed (last_executed_time self) now (minutes_key n) (Z.pos n)
    then (Return (acc ++ actions), set_last_executed_time (minutes_key n) now self)
    else (Return acc, self).
Proof.
  rewrite item_body_ok by apply key_ok_minutes_key.
  unfold fired, table_after. cbn [fst snd].
  rewrite input_fires_minutes_key, time_fires_minutes_key.
  destruct (elapsed _ _ _ _); [reflexivity|].
  now rewrite app_nil_r, with_table_same.
Qed.

(** C1. Whenever the loop of [get_rules] reaches a key [every_<n>_minutes],
    it appends the directives of the key exactly when the key has no last
    execution recorded or at least [n] minutes lie between the recorded one and
    the clock reading of the call, and exactly then it records that clock
    reading for the key.  For the whole call, on documents where the item is
    the first with that key and [x] is a directive of that item only: when the
    call returns, [x] is in the result exactly in that case, the recorded time
    of the key becomes the clock reading in that case, and stays otherwise. *)
Theorem minutes_key_fires_when_elapsed (n : positive) (now : Z) :
  (forall (acc actions : list string) (self : YakusokuKeeper),
      item_body now acc (minutes_key n, actions) self
      = match last_executed_time self !! minutes_key n with
        | None => (Return (acc ++ actions), set_last_executed_time (minutes_key n) now self)
        | Some last =>
            if Z.pos n * 60 * 1000000 <=? now - last
            then (Return (acc ++ actions), set_last_executed_time (minutes_key n) now self)
            else (Return acc, self)
        end)
  /\ (forall (files : list ConfigFile) (self : YakusokuKeeper)
        (before : list RuleDocument) (d_pre : RuleDocument) (actions : list string)
        (d_post : RuleDocument) (after : list RuleDocument)
        (x : string) (res : list string) (self' : YakusokuKeeper),
        loaded files = before ++ (d_pre ++ (minutes_key n, actions) :: d_post) :: after ->
        In x actions ->
        no_directive x (before ++ (d_pre ++ d_post) :: after) = true ->
        no_key (minutes_key n) (before ++ [d_pre]) = true ->
        get_rules files now self = (Return res, self') ->
        let due :=
          last_executed_time self !! minutes_key n = None
          \/ exists last, last_executed_time self !! minutes_key n = Some last
                          /\ Z.pos n * 60 * 1000000 <= now - last in
        (In x res <-> due)
        /\ (due -> last_executed_time self' !! minutes_key n = Some now)
        /\ (~ due -> last_executed_time self' !! minutes_key n
                     = last_executed_time self !! minutes_key n)).
Proof.
  split.
  { intros acc actions self. rewrite item_body_minutes_key.
    unfold elapsed, microseconds_per_minute.
    destruct (last_executed_time self !! minutes_key n) as [last|]; [|reflexivity].
    now rewrite Z.mul_assoc. }
  intros files self before d_pre actions d_post after x res self'
    Hdocs Hx Hno Hkey (_ & -> & ->)%get_rules_returns due.
  subst due. rewrite <- elapsed_iff.
  cbn [with_table last_executed_time]. rewrite Hdocs.
  set (c := input_count self + 1). set (t := last_executed_time self).
  assert (Htp : (run_items c now d_pre (run_docs c now before t).2).2 !! minutes_key n
                = t !! minutes_key n).
  { unfold no_key in Hkey. rewrite forallb_app in Hkey. cbn [forallb] in Hkey.
    rewrite andb_true_r in Hkey. apply andb_true_iff in Hkey as [Hb Hpre].
    now apply table_before_item. }
  split; [|split].
  - rewrite (sole_directive_In _ _ _ _ _ _ _ _ _ _ (minutes_key_not_first n) Hno).
    unfold fired. cbn [fst snd].
    rewrite input_fires_minutes_key, time_fires_minutes_key. cbn [app].
    unfold elapsed in *. rewrite Htp.
    destruct (match t !! minutes_key n with Some _ => _ | None => _ end).
    + tauto.
    + split; [intros [] | discriminate].
  - intros Hdue. rewrite run_docs_split. cbn [snd fst].
    apply run_docs_now, run_items_now. rewrite table_after_same.
    rewrite time_fires_minutes_key. unfold elapsed in *. rewrite Htp.
    now rewrite Hdue.
  - intros Hdue. apply run_docs_quiet.
    apply Forall_forall. intros d _. apply Forall_forall. intros item _ _.
    rewrite time_fires_minutes_key. now destruct (elapsed _ _ _ _).
Qed.

(** After ["B"] has fired at time 0 under [every_10_minutes], a call nine
    minutes later leaves it out and keeps the recorded time. *)
Lemma minutes_key_fires_when_elapsed_witness :
  let files := [Parsed [("every_10_minutes", ["B"])]] in
  let self := (get_rules files 0 init).2 in
  let now := 9 * 60 * 1000000 in
  let due :=
    last_executed_time self !! minutes_key 10 = None
    \/ exists last, last_executed_time self !! minutes_key 10 = Some last
                    /\ 10 * 60 * 1000000 <= now - last in
  (In "B" [] <-> due)
  /\ (due -> last_executed_time (get_rules files now self).2 !! minutes_key 10 = Some now)
  /\ (~ due -> last_executed_time (get_rules files now self).2 !! minutes_key 10
               = last_executed_time self !! minutes_key 10).
Proof.
  intros files self now.
  destruct (minutes_key_fires_when_elapsed 10 now) as [_ Hcall].
  apply (Hcall files self [] [] ["B"] [] [] "B" []
           (get_rules files now self).2).
  - reflexivity.
  - now left.
  - reflexivity.
  - reflexivity.
  - apply injective_projections; [vm_compute; reflexivity | reflexivity].
Defined.

(** ** The order of the result *)

Lemma distinct_NoDup (keys : list string) : distinct keys = true -> NoDup keys.
Proof.
  induction keys as [|key keys IH]; cbn [distinct]; [constructor|].
  intros [Hhead Htail]%andb_true_iff. constructor; [|now apply IH].
  intros Hin%list_elem_of_In. apply negb_true_iff in Hhead.
  assert (existsb (String.eqb key) keys = true) as E; [|congruence].
  apply existsb_exists. exists key. split; [exact Hin | apply String.eqb_refl].
Qed.

Lemma time_keys_cons (d : RuleDocument) (docs : list RuleDocument) :
  time_keys (d :: docs) = item_time_keys d ++ time_keys docs.
Proof. unfold time_keys, item_time_keys. cbn [concat]. now rewrite map_app, filter_app. Qed.

Lemma time_fires_not_time_key (t : gmap string Z) (now : Z) (key : string) :
  is_time_key key = false -> time_fires t now key = false.
Proof. unfold time_fires. now intros ->. Qed.

Lemma run_items_outside (count now : Z) (items : RuleDocument) (t : gmap string Z)
    (k : string) :
  k ∉ item_time_keys items -> (run_items count now items t).2 !! k = t !! k.
Proof.
  intros Hk. apply run_items_quiet. apply Forall_forall.
  intros item Hitem E. apply time_fires_not_time_key.
  destruct (is_time_key k) eqn:Ht; [|reflexivity].
  exfalso. apply Hk. unfold item_time_keys. apply list_elem_of_filter.
  split; [exact Ht|]. subst k. now apply list_elem_of_fmap_2.
Qed.

Lemma fired_same_lookup (count now : Z) (t t' : gmap string Z) (item : string * list string) :
  (is_time_key item.1 = true -> t' !! item.1 = t !! item.1) ->
  fired count t' now item = fired count t now item.
Proof.
  intros H. unfold fired. f_equal.
  destruct (is_time_key item.1) eqn:E.
  - now rewrite (time_fires_lookup t' t now item.1 (H eq_refl)).
  - now rewrite !time_fires_not_time_key.
Qed.

Lemma run_items_closed (count now : Z) (t : gmap string Z) (items : RuleDocument)
    (t' : gmap string Z) :
  NoDup (item_time_keys items) ->
  (forall k, k ∈ item_time_keys items -> t' !! k = t !! k) ->
  (run_items count now items t').1 = flat_map (fired count t now) items.
Proof.
  revert t'. induction items as [|item items IH]; intros t' Hnd Hsame; [reflexivity|].
  cbn [run_items flat_map].
  specialize (IH (table_after t' now item.1)).
  destruct (run_items count now items _) as [out t'']. cbn [fst] in *.
  unfold item_time_keys in Hnd, Hsame, IH. cbn [map] in Hnd, Hsame.
  rewrite filter_cons in Hnd, Hsame.
  destruct (decide (is_time_key item.1 = true)) as [Ht|Ht].
  - apply NoDup_cons in Hnd as [Hhead Hnd]. f_equal.
    + apply fired_same_lookup. intros _. apply Hsame. now left.
    + apply IH; [exact Hnd|]. intros k Hk.
      rewrite table_after_other by (intros <-; contradiction).
      apply Hsame. now right.
  - f_equal.
    + apply fired_same_lookup. intros E. contradiction.
    + apply IH; [exact Hnd|]. intros k Hk.
      unfold table_after. rewrite time_fires_not_time_key by now destruct (is_time_key item.1).
      now apply Hsame.
Qed.

Lemma run_docs_closed (count now : Z) (t : gmap string Z) (docs : list RuleDocument)
    (t' : gmap string Z) :
  NoDup (time_keys docs) ->
  (forall k, k ∈ time_keys docs -> t' !! k = t !! k) ->
  (run_docs count now docs t').1 = flat_map (matches count t now) docs.
Proof.
  revert t'. induction docs as [|d docs IH]; intros t' Hnd Hsame; [reflexivity|].
  cbn [run_docs flat_map]. rewrite time_keys_cons in Hnd, Hsame.
  apply NoDup_app in Hnd as (Hd & Hdisjoint & Hdocs).
  pose proof (run_items_closed count now t d t' Hd) as Hout.
  pose proof (run_items_outside count now d t') as Htable.
  destruct (run_items count now d t') as [out_d table_d]. cbn [fst snd] in *.
  specialize (IH table_d Hdocs).
  destruct (run_docs count now docs table_d) as [out t'']. cbn [fst] in *.
  unfold matches at 1. rewrite <- app_assoc. f_equal. f_equal.
  - apply Hout. intros k Hk. apply Hsame, elem_of_app. now left.
  - apply IH. intros k Hk. rewrite Htable.
    + apply Hsame, elem_of_app. now right.
    + intros Hin. exact (Hdisjoint k Hin Hk).
Qed.

(** C5, as the code has it.  Inside a document the keys are taken in
    their order, whichever test they pass: a time key placed before an input
    key has its directives first, where the documented order puts them last. *)
Lemma time_key_before_input_key :
  let d := [("every_1_minutes", ["M"]); ("every_1_inputs", ["I"])] in
  (get_rules [Parsed d] 0 init).1 = Return ["M"; "I"]
  /\ documented_matches 1 ∅ 0 d = ["I"; "M"].
Proof. split; vm_compute; reflexivity. Qed.

(** C5, amended.  What [get_rules] returns is, document after document in
    load order, the [first] directives of the document when the counter reads
    1, then, key after key in the order of the document, the directives of the
    key if its input-count test passes followed by the directives of the key
    if its time test passes, each list in its own order.  The time test of a
    key is made on the table as the keys before it left it ([run_docs]); when
    no time key occurs twice among the loaded documents, that is the table the
    call began with. *)
Theorem result_in_load_and_key_order (files : list ConfigFile) (now : Z)
    (self self' : YakusokuKeeper) (res : list string) :
  get_rules files now self = (Return res, self') ->
  res = (run_docs (input_count self + 1) now (loaded files) (last_executed_time self)).1
  /\ (distinct (time_keys (loaded files)) = true ->
      res = flat_map (fun d =>
                (if input_count self + 1 =? 1 then get "first" d else [])
                ++ flat_map (fun item : string * list string =>
                     (if input_fires (input_count self + 1) item.1 then item.2 else [])
                     ++ (if time_fires (last_executed_time self) now item.1
                         then item.2 else [])) d)
              (loaded files)).
Proof.
  intros (_ & -> & _)%get_rules_returns. split; [reflexivity|].
  intros Hd%distinct_NoDup. now apply run_docs_closed.
Qed.

Lemma result_in_load_and_key_order_witness :
  let files := [Parsed [("every_1_minutes", ["M"]); ("first", ["F"]); ("every_1_inputs", ["I"])];
                Parsed [("first", ["G"]); ("every_1_inputs", ["J"])]] in
  ["F"; "M"; "I"; "G"; "J"]
  = flat_map (fun d =>
                (if input_count init + 1 =? 1 then get "first" d else [])
                ++ flat_map (fun item : string * list string =>
                     (if input_fires (input_count init + 1) item.1 then item.2 else [])
                     ++ (if time_fires (last_executed_time init) 0 item.1
                         then item.2 else [])) d)
      (loaded files).
Proof.
  intros files.
  destruct (result_in_load_and_key_order files 0 init (get_rules files 0 init).2
              ["F"; "M"; "I"; "G"; "J"]) as [_ Hclosed].
  - apply injective_projections; [vm_compute; reflexivity | reflexivity].
  - apply Hclosed. reflexivity.
Defined.

(** ** Several documents *)

Lemma prepend_prepend (acc acc' : list string) (r : Res (list string) * YakusokuKeeper) :
  prepend acc (prepend acc' r) = prepend (acc ++ acc') r.
Proof. destruct r as [[l|e] s]; cbn; [now rewrite app_assoc | reflexivity]. Qed.

Lemma item_body_prepend (now : Z) (acc : list string) (item : string * list string)
    (self : YakusokuKeeper) :
  item_body now acc item self = prepend acc (item_body now [] item self).
Proof.
  destruct item as [key actions]. unfold item_body, mbind, M_bind, bind.
  rewrite !input_rule_eq.
  destruct (is_input_key key), (piece_int key) as [n|] eqn:En;
    try reflexivity;
    try (destruct (n =? 0); [reflexivity|]);
    try (destruct (_ mod _ =? 0));
    rewrite !time_rule_eq, ?En;
    destruct (is_time_key key); try reflexivity;
    try (destruct (elapsed _ _ _ _));
    cbn [prepend app]; rewrite ?app_nil_r, <- ?app_assoc; reflexivity.
Qed.

Lemma for_each_items_prepend (now : Z) (items : RuleDocument) (acc : list string)
    (self : YakusokuKeeper) :
  for_each items (item_body now) acc self
  = prepend acc (for_each items (item_body now) [] self).
Proof.
  revert acc self. induction items as [|item items IH]; intros acc self.
  - cbn. now rewrite app_nil_r.
  - cbn [for_each]. unfold mbind, M_bind, bind.
    rewrite (item_body_prepend now acc).
    destruct (item_body now [] item self) as [[l|e] s]; cbn [prepend]; [|reflexivity].
    rewrite (IH (acc ++ l)), (IH l). now rewrite prepend_prepend.
Qed.

Lemma rule_set_body_prepend (now : Z) (acc : list string) (rule_set : RuleDocument)
    (self : YakusokuKeeper) :
  rule_set_body now acc rule_set self = prepend acc (document_matches now rule_set self).
Proof.
  unfold document_matches. rewrite !rule_set_body_eq.
  destruct (input_count self =? 1).
  - rewrite for_each_items_prepend, (for_each_items_prepend now _ ([] ++ _)).
    now rewrite prepend_prepend.
  - apply for_each_items_prepend.
Qed.

Lemma for_each_docs_concat (now : Z) (docs : list RuleDocument) (acc : list string)
    (self : YakusokuKeeper) :
  for_each docs (rule_set_body now) acc self
  = prepend acc ((ms ← mapM (document_matches now) docs; mret (concat ms)) self).
Proof.
  revert acc self. induction docs as [|d docs IH]; intros acc self.
  - cbn [for_each mapM]. unfold mbind, M_bind, bind, mret, M_ret, ret.
    cbn [prepend concat]. now rewrite app_nil_r.
  - cbn [for_each mapM]. unfold mbind, M_bind, bind, mret, M_ret, ret in *.
    rewrite rule_set_body_prepend.
    destruct (document_matches now d self) as [[l|e] s]; cbn [prepend]; [|reflexivity].
    rewrite IH.
    destruct (mapM (document_matches now) docs s) as [[ms|e] s']; cbn [prepend concat];
      [now rewrite app_assoc | reflexivity].
Qed.

(** C7, as the code has it.  The documents share the table of last
    executions: a time key that two documents define fires for the first of
    them only, so the result is not the concatenation of what each document
    gives when it is loaded alone. *)
Lemma shared_time_key_fires_once :
  let d1 := [("every_60_minutes", ["A"])] in
  let d2 := [("every_60_minutes", ["B"])] in
  (get_rules [Parsed d1] 0 init).1 = Return ["A"]
  /\ (get_rules [Parsed d2] 0 init).1 = Return ["B"]
  /\ (get_rules [Parsed d1; Parsed d2] 0 init).1 = Return ["A"].
Proof. repeat split; vm_compute; reflexivity. Qed.

(** C7, amended.  [get_rules] returns the concatenation, in load order and
    without merging or removal of duplicates, of what each loaded document
    contributes, each document being evaluated on the object (the counter and
    the table of last executions) as the documents before it left it.  With
    two documents that both define [every_<n>_inputs], a call whose number is
    a multiple of [n] returns the directives of the first followed by those of
    the second. *)
Theorem documents_concatenated_in_load_order (files : list ConfigFile) (now : Z)
    (self : YakusokuKeeper) :
  get_rules files now self
  = (ms ← mapM (document_matches now) (loaded files); mret (concat ms))
      (entered files self)
  /\ (forall (n : positive) (l1 l2 : list string),
        (input_count self + 1) mod Z.pos n = 0 ->
        (get_rules [Parsed [(inputs_key n, l1)]; Parsed [(inputs_key n, l2)]] now self).1
        = Return (l1 ++ l2)).
Proof.
  split.
  - rewrite get_rules_eq, for_each_docs_concat.
    now destruct ((ms ← mapM (document_matches now) (loaded files); mret (concat ms))
                    (entered files self)) as [[l|e] s].
  - intros n l1 l2 Hmod.
    rewrite get_rules_ok.
    + cbn [loaded run_docs run_items fst snd get].
      unfold fired. cbn [fst snd].
      rewrite !input_fires_inputs_key, !time_fires_inputs_key, Hmod.
      change (String.eqb (inputs_key n) "first") with false.
      cbn [Z.eqb]. destruct (_ =? 1); now rewrite !app_nil_r.
    + cbn [loaded keys_ok items_ok forallb fst]. now rewrite key_ok_inputs_key.
Qed.

Lemma documents_concatenated_in_load_order_witness :
  (get_rules [Parsed [(inputs_key 5, ["a"; "b"])]; Parsed [(inputs_key 5, ["b"; "c"])]]
     7 (after_calls [([], 0); ([], 1); ([], 2); ([], 3)] init)).1
  = Return (["a"; "b"] ++ ["b"; "c"]).
Proof.
  destruct (documents_concatenated_in_load_order [] 7
              (after_calls [([], 0); ([], 1); ([], 2); ([], 3)] init)) as [_ Htwo].
  apply Htwo. reflexivity.
Defined.

(** ** Keys outside the documented grammar *)

Lemma not_documented_key (key : string) :
  key <> "first" ->
  (forall n, piece_int key = Some (Z.pos n) -> key <> inputs_key n /\ key <> minutes_key n) ->
  ~ documented_key key.
Proof.
  intros Hfirst Hn [E | (n & [E|E])]; [contradiction | |].
  - destruct (Hn n) as [H _]; [|contradiction]. rewrite E. apply piece_int_inputs_key.
  - destruct (Hn n) as [_ H]; [|contradiction]. rewrite E. apply piece_int_minutes_key.
Qed.

Lemma item_body_inert (now : Z) (acc : list string) (key : string) (actions : list string)
    (self : YakusokuKeeper) :
  inert_key key = true -> item_body now acc (key, actions) self = (Return acc, self).
Proof.
  unfold inert_key. intros [Hi Ht]%andb_true_iff.
  apply negb_true_iff in Hi, Ht.
  unfold item_body, mbind, M_bind, bind.
  now rewrite input_rule_eq, Hi, time_rule_eq, Ht.
Qed.

Lemma get_without (key : string) (actions : list string) (d_pre d_post : RuleDocument) :
  key <> "first" ->
  get "first" (d_pre ++ (key, actions) :: d_post) = get "first" (d_pre ++ d_post).
Proof.
  intros Hk. induction d_pre as [|[k v] d_pre IH]; cbn [app get].
  - destruct (String.eqb_spec key "first"); [contradiction | reflexivity].
  - now rewrite IH.
Qed.

(** C8, as the code has it.  Keys outside the documented grammar are not all
    skipped: one whose second piece is no integer makes the call raise, one
    that goes on after [_inputs] contributes its directives, and one that goes
    on after [_minutes] also gets an entry in the table of last executions. *)
Lemma undocumented_keys_not_inert :
  (~ documented_key "every_abc_minutes"
   /\ (get_rules [Parsed [("every_abc_minutes", ["X"])]] 0 init).1 = Raise ValueError)
  /\ (~ documented_key "every_1_inputs_later"
      /\ (get_rules [Parsed [("every_1_inputs_later", ["X"])]] 0 init).1 = Return ["X"])
  /\ (~ documented_key "every_7_minutes_late"
      /\ (get_rules [Parsed [("every_7_minutes_late", ["X"])]] 3 init).1 = Return ["X"]
      /\ last_executed_time (get_rules [Parsed [("every_7_minutes_late", ["X"])]] 3 init).2
           !! "every_7_minutes_late" = Some 3).
Proof.
  repeat split; try (vm_compute; reflexivity);
    apply not_documented_key; try discriminate;
    intros n Hn; vm_compute in Hn; try discriminate;
    injection Hn as <-; split; discriminate.
Qed.

(** C8, amended.  A key that does not start with [every_], or that contains
    neither [_inputs] nor [_minutes], is skipped by the loop over the keys: the
    loop body returns the list it was given and leaves the object as it was,
    and, for a key other than [first], the loops over the documents do the
    same with the item and without it. *)
Theorem inert_key_is_skipped (key : string) (now : Z) :
  inert_key key = true ->
  (forall (acc actions : list string) (self : YakusokuKeeper),
      item_body now acc (key, actions) self = (Return acc, self))
  /\ (key <> "first" ->
      forall (before : list RuleDocument) (d_pre : RuleDocument) (actions : list string)
        (d_post : RuleDocument) (after : list RuleDocument) (acc : list string)
        (self : YakusokuKeeper),
        for_each (before ++ (d_pre ++ (key, actions) :: d_post) :: after)
          (rule_set_body now) acc self
        = for_each (before ++ (d_pre ++ d_post) :: after) (rule_set_body now) acc self).
Proof.
  intros Hinert. split.
  - intros acc actions self. now apply item_body_inert.
  - intros Hk before d_pre actions d_post after acc self.
    rewrite !for_each_app. unfold mbind, M_bind, bind.
    destruct (for_each before (rule_set_body now) acc self) as [[acc1|e] self1];
      [|reflexivity].
    cbn [for_each]. unfold mbind, M_bind, bind.
    rewrite !rule_set_body_eq, get_without by assumption.
    rewrite !for_each_app. unfold mbind, M_bind, bind.
    destruct (for_each d_pre (item_body now) _ self1) as [[acc2|e] self2];
      [|reflexivity].
    cbn [for_each]. unfold mbind, M_bind, bind.
    now rewrite item_body_inert.
Qed.

Lemma inert_key_is_skipped_witness :
  (forall (acc actions : list string) (self : YakusokuKeeper),
      item_body 0 acc ("notes", actions) self = (Return acc, self))
  /\ (get_rules [Parsed [("notes", ["N"]); ("every_1_inputs", ["I"])]] 0 init).1
     = (get_rules [Parsed [("every_1_inputs", ["I"])]] 0 init).1.
Proof.
  destruct (inert_key_is_skipped "notes" 0 eq_refl) as [Hbody Hloops].
  split; [exact Hbody|].
  rewrite !get_rules_eq. cbn [loaded].
  now rewrite (Hloops ltac:(discriminate) [] [] ["N"] [("every_1_inputs", ["I"])] [] []).
Defined.

(** ** The table of last executions *)

Lemma time_fires_timed (t : gmap string Z) (now : Z) (key : string) :
  time_fires t now key = true ->
  is_time_key key = true /\ exists minutes, piece_int key = Some minutes.
Proof.
  unfold time_fires. destruct (is_time_key key); [|discriminate].
  destruct (piece_int key) as [minutes|]; [|discriminate]. eauto.
Qed.

(** An entry that a run changes is set to the clock reading, for an item
    whose time test passed and whose directives are in the output. *)
Lemma run_items_change (count now : Z) (items : RuleDocument) (t : gmap string Z)
    (key : string) :
  (run_items count now items t).2 !! key = t !! key
  \/ ((run_items count now items t).2 !! key = Some now
      /\ exists actions,
           In (key, actions) items
           /\ (is_time_key key = true /\ exists minutes, piece_int key = Some minutes)
           /\ incl actions (run_items count now items t).1).
Proof.
  revert t. induction items as [|[k a] items IH]; intros t; [now left|].
  cbn [run_items fst]. specialize (IH (table_after t now k)).
  destruct (run_items count now items _) as [out t']. cbn [fst snd] in *.
  destruct IH as [Hsame | (Hnow & actions & Hin & Htimed & Hincl)].
  - rewrite Hsame. destruct (decide (k = key)) as [->|Hne].
    + rewrite table_after_same. destruct (time_fires t now key) eqn:Hf; [|now left].
      right. split; [reflexivity|]. exists a. split; [now left|].
      split; [eapply time_fires_timed; eassumption|].
      intros x Hx. unfold fired. cbn [fst snd]. rewrite Hf, !in_app_iff. auto.
    + left. now apply table_after_other.
  - right. split; [exact Hnow|]. exists actions. split; [now right|].
    split; [exact Htimed|]. intros x Hx. apply in_app_iff. right. now apply Hincl.
Qed.

Lemma run_docs_change (count now : Z) (docs : list RuleDocument) (t : gmap string Z)
    (key : string) :
  (run_docs count now docs t).2 !! key = t !! key
  \/ ((run_docs count now docs t).2 !! key = Some now
      /\ exists d actions,
           In d docs /\ In (key, actions) d
           /\ (is_time_key key = true /\ exists minutes, piece_int key = Some minutes)
           /\ incl actions (run_docs count now docs t).1).
Proof.
  revert t. induction docs as [|d docs IH]; intros t; [now left|].
  cbn [run_docs]. pose proof (run_items_change count now d t key) as Hd.
  destruct (run_items count now d t) as [out_d table_d]. cbn [fst snd] in Hd.
  specialize (IH table_d).
  pose proof (run_docs_now count now docs table_d key) as Hkeep.
  destruct (run_docs count now docs table_d) as [out t']. cbn [fst snd] in *.
  destruct IH as [Hsame | (Hnow & d' & actions & Hd' & Hin & Htimed & Hincl)].
  - destruct Hd as [Hd | (Hnow & actions & Hin & Htimed & Hincl)].
    + left. congruence.
    + right. split; [now apply Hkeep|]. exists d, actions. split; [now left|].
      split; [exact Hin|]. split; [exact Htimed|].
      intros x Hx. rewrite !in_app_iff. auto.
  - right. split; [exact Hnow|]. exists d', actions. split; [now right|].
    split; [exact Hin|]. split; [exact Htimed|].
    intros x Hx. rewrite !in_app_iff. auto.
Qed.

Lemma get_rules_change (files : list ConfigFile) (now : Z) (self : YakusokuKeeper)
    (key : string) :
  last_executed_time (get_rules files now self).2 !! key <> last_executed_time self !! key ->
  last_executed_time (get_rules files now self).2 !! key = Some now
  /\ exists d actions,
       In d (loaded files) /\ In (key, actions) d
       /\ (is_time_key key = true /\ exists minutes, piece_int key = Some minutes)
       /\ forall res, (get_rules files now self).1 = Return res -> incl actions res.
Proof.
  destruct (keys_ok (loaded files)) eqn:Hok.
  - rewrite get_rules_ok by assumption. cbn [fst snd with_table last_executed_time].
    intros Hne.
    destruct (run_docs_change (input_count self + 1) now (loaded files)
                (last_executed_time self) key)
      as [Hsame | (Hnow & d & actions & Hd & Hin & Htimed & Hincl)]; [contradiction|].
    split; [exact Hnow|]. exists d, actions. repeat (split; [assumption|]).
    now intros res [= <-].
  - destruct (get_rules_raise files now self Hok)
      as (e & before & cut & rest & after & Hdocs & _ & ->).
    cbn [fst snd with_table last_executed_time]. intros Hne.
    destruct (run_docs_change (input_count self + 1) now (before ++ [cut])
                (last_executed_time self) key)
      as [Hsame | (Hnow & d & actions & Hd & Hin & Htimed & _)]; [contradiction|].
    split; [exact Hnow|].
    apply in_app_iff in Hd as [Hd | [<- | []]].
    + exists d, actions. rewrite Hdocs.
      split; [apply in_app_iff; now left|]. split; [exact Hin|].
      split; [exact Htimed | discriminate].
    + exists (cut ++ rest), actions. rewrite Hdocs.
      split; [apply in_app_iff; right; now left|].
      split; [apply in_app_iff; now left|].
      split; [exact Htimed | discriminate].
Qed.

(** C9, as the code has it.  The table takes keys that are not of the form
    [every_<N>_minutes], and an entry written before a later key raises
    stays, although the call returns no result. *)
Lemma table_beyond_documented_keys :
  (~ documented_time_key "every_5_minutes_x"
   /\ last_executed_time (get_rules [Parsed [("every_5_minutes_x", ["A"])]] 0 init).2
        !! "every_5_minutes_x" = Some 0)
  /\ (let files := [Parsed [("every_1_minutes", ["A"]); ("every_x_inputs", ["B"])]] in
      (get_rules files 7 init).1 = Raise ValueError
      /\ last_executed_time (get_rules files 7 init).2 !! "every_1_minutes" = Some 7).
Proof.
  split; [split|split]; try (vm_compute; reflexivity).
  intros [n E].
  assert (Hn : piece_int "every_5_minutes_x" = Some (Z.pos n))
    by (rewrite E; apply piece_int_minutes_key).
  vm_compute in Hn. injection Hn as <-. discriminate E.
Qed.

(** C9, amended.  The table of last executions is empty at construction and
    after [reset]; [get_rules] keeps the invariant that every key in it passes
    the time test of the code (it starts with [every_], contains [_minutes] and
    its second piece reads as an integer); and an entry that a call of
    [get_rules] writes or changes is set to the clock reading of the call, for
    a key of a loaded document that passed the time test in that call, whose
    directives are in the result when the call returns one. *)
Theorem table_written_only_on_time_match (files : list ConfigFile) (now : Z)
    (self : YakusokuKeeper) :
  (last_executed_time init = ∅ /\ last_executed_time (reset self).2 = ∅)
  /\ (table_keys_timed init /\ table_keys_timed (reset self).2)
  /\ (table_keys_timed self -> table_keys_timed (get_rules files now self).2)
  /\ (forall key,
        last_executed_time (get_rules files now self).2 !! key
        <> last_executed_time self !! key ->
        last_executed_time (get_rules files now self).2 !! key = Some now
        /\ exists d actions,
             In d (loaded files) /\ In (key, actions) d
             /\ (is_time_key key = true /\ exists minutes, piece_int key = Some minutes)
             /\ forall res, (get_rules files now self).1 = Return res -> incl actions res).
Proof.
  split; [now split|]. split.
  - split; intros key t H; cbn in H; now rewrite lookup_empty in H.
  - split.
    + intros Hinv key t Ht.
      destruct (decide (last_executed_time (get_rules files now self).2 !! key
                        = last_executed_time self !! key)) as [E|Hne].
      * rewrite E in Ht. exact (Hinv key t Ht).
      * now destruct (get_rules_change files now self key Hne) as (_ & _ & _ & _ & _ & H & _).
    + intros key. apply get_rules_change.
Qed.

Lemma table_written_only_on_time_match_witness :
  let files := [Parsed [("every_10_minutes", ["B"])]] in
  table_keys_timed (get_rules files 5 init).2.
Proof.
  intros files.
  destruct (table_written_only_on_time_match files 5 init) as (_ & [Hinit _] & Hkeep & _).
  exact (Hkeep Hinit).
Defined.

(** ** Keys written from any integer *)

Section SignedKeys.

Import NilEmpty.

Lemma str_of_int_digits (z : Z) :
  str_of_int z
  = if z <? 0 then String "-" (string_of_uint (digits_of z)) else string_of_uint (digits_of z).
Proof. destruct z; reflexivity. Qed.

Lemma digits_of_not_nil (z : Z) : digits_of z <> Decimal.Nil.
Proof. destruct z; [discriminate | apply to_uint_not_nil ..]. Qed.

Lemma digits_of_value (z : Z) : Z.of_N (Pos.of_uint (digits_of z)) = Z.abs z.
Proof. destruct z; cbn [digits_of]; [reflexivity | ..]; now rewrite DecimalPos.Unsigned.of_to. Qed.

Lemma int_str_of_int (z : Z) : PyStr.int (str_of_int z) = Some z.
Proof.
  rewrite str_of_int_digits. unfold PyStr.int.
  pose proof (digits_of_not_nil z) as Hd. pose proof (digits_of_value z) as Hv.
  destruct (Z.ltb_spec z 0) as [Hneg|Hpos].
  - cbn [PyStr.lstrip PyStr.signed]. change (PyStr.isspace "-") with false. cbv iota.
    cbn [PyStr.signed]. rewrite digits_of_uint by assumption. cbn [fmap option_fmap option_map].
    f_equal. lia.
  - rewrite lstrip_of_uint, signed_of_uint, digits_of_uint by assumption. f_equal. lia.
Qed.

Lemma split_str_of_int (z : Z) (rest : string) :
  PyStr.split "_" ("every_" ++ str_of_int z ++ String "_" rest) !! 1%nat
  = Some (str_of_int z).
Proof.
  rewrite split_every_prefix, str_of_int_digits.
  destruct (z <? 0).
  - change (PyStr.split "_" (String "-" ?s ++ ?r))
      with (match PyStr.split "_" (s ++ r) with
            | [] => [String "-" EmptyString]
            | w :: ws => String "-" w :: ws
            end).
    now rewrite split_of_uint.
  - now rewrite split_of_uint.
Qed.

Lemma piece_int_every (z : Z) (rest : string) :
  piece_int ("every_" ++ str_of_int z ++ String "_" rest) = Some z.
Proof. unfold piece_int. now rewrite split_str_of_int, int_str_of_int. Qed.

Lemma contains_every_int (sub rest : string) (z : Z) :
  PyStr.contains (String "_" sub) ("every_" ++ str_of_int z ++ rest)
  = String.prefix (String "_" sub) (String "_" (str_of_int z ++ rest))
    || PyStr.contains (String "_" sub) rest.
Proof.
  transitivity (String.prefix (String "_" sub) (String "_" (str_of_int z ++ rest))
                || PyStr.contains (String "_" sub) (str_of_int z ++ rest)).
  - reflexivity.
  - f_equal. rewrite str_of_int_digits. destruct (z <? 0).
    + cbn [String.append]. rewrite <- (contains_of_uint sub rest (digits_of z)). reflexivity.
    + apply contains_of_uint.
Qed.

Lemma prefix_underscore_int (sub rest : string) (z : Z) :
  String.prefix (String "_" (String "i" sub)) (String "_" (str_of_int z ++ rest)) = false
  /\ String.prefix (String "_" (String "m" sub)) (String "_" (str_of_int z ++ rest)) = false.
Proof.
  rewrite str_of_int_digits. destruct (z <? 0).
  - split; reflexivity.
  - apply prefix_underscore_uint, digits_of_not_nil.
Qed.

End SignedKeys.

Section EveryKeys.

Variable z : Z.

Lemma piece_int_every_inputs : piece_int (every_inputs z) = Some z.
Proof. apply piece_int_every. Qed.

Lemma piece_int_every_minutes : piece_int (every_minutes z) = Some z.
Proof. apply piece_int_every. Qed.

Lemma is_input_key_every_inputs : is_input_key (every_inputs z) = true.
Proof.
  unfold is_input_key, every_inputs.
  rewrite startswith_every, contains_every_int. apply orb_true_r.
Qed.

Lemma is_time_key_every_inputs : is_time_key (every_inputs z) = false.
Proof.
  unfold is_time_key, every_inputs. rewrite startswith_every, contains_every_int.
  now destruct (prefix_underscore_int "inutes" "_inputs" z) as [_ ->].
Qed.

Lemma is_time_key_every_minutes : is_time_key (every_minutes z) = true.
Proof.
  unfold is_time_key, every_minutes.
  rewrite startswith_every, contains_every_int. apply orb_true_r.
Qed.

Lemma is_input_key_every_minutes : is_input_key (every_minutes z) = false.
Proof.
  unfold is_input_key, every_minutes. rewrite startswith_every, contains_every_int.
  now destruct (prefix_underscore_int "nputs" "_minutes" z) as [-> _].
Qed.

Lemma key_ok_every_inputs : key_ok (every_inputs z) = negb (z =? 0).
Proof.
  unfold key_ok.
  rewrite is_input_key_every_inputs, is_time_key_every_inputs, piece_int_every_inputs.
  apply andb_true_r.
Qed.

Lemma key_ok_every_minutes : key_ok (every_minutes z) = true.
Proof.
  unfold key_ok.
  now rewrite is_input_key_every_minutes, is_time_key_every_minutes, piece_int_every_minutes.
Qed.

End EveryKeys.

(** ** Further properties of [get_rules] *)

Lemma get_rules_rules (files : list ConfigFile) (now : Z) (self : YakusokuKeeper) :
  rules (get_rules files now self).2 = loaded files.
Proof.
  destruct (keys_ok (loaded files)) eqn:Hok.
  - now rewrite get_rules_ok.
  - destruct (get_rules_raise files now self Hok) as (e & ? & ? & ? & ? & _ & _ & He).
    now rewrite He.
Qed.

(** X1. Every call of [get_rules] adds one to the counter and stores the
    documents it loaded, whether it returns or raises; so after a [reset] the
    counter is the number of calls made since, raising calls included. *)
Theorem every_call_is_counted (files : list ConfigFile) (now : Z) (self : YakusokuKeeper)
    (calls : list (list ConfigFile * Z)) :
  input_count (get_rules files now self).2 = input_count self + 1
  /\ rules (get_rules files now self).2 = loaded files
  /\ input_count (after_calls calls (reset self).2) = Z.of_nat (length calls).
Proof.
  split; [apply get_rules_count|]. split; [apply get_rules_rules|].
  rewrite after_calls_count. reflexivity.
Qed.

(** X2. Every directive that [get_rules] returns stands in a loaded document,
    under the key [first] on the first call after a reset of the counter, or
    under a key whose input-count test passes, or under a key on which the
    time test is made. *)
Theorem result_from_loaded_documents (files : list ConfigFile) (now : Z)
    (self self' : YakusokuKeeper) (res : list string) (x : string) :
  get_rules files now self = (Return res, self') ->
  In x res ->
  exists d key actions,
    In d (loaded files) /\ In (key, actions) d /\ In x actions
    /\ ((key = "first" /\ input_count self = 0)
        \/ input_fires (input_count self + 1) key = true
        \/ (is_time_key key = true /\ exists minutes, piece_int key = Some minutes)).
Proof.
  intros (_ & -> & _)%get_rules_returns Hx.
  apply run_docs_out_In in Hx
    as [(Hc & d & Hd & (a & Hin & Hx)%get_In)
       | (d & [key a] & t' & Hd & Hin & [Hx Hf]%fired_In)].
  - exists d, "first", a. repeat (split; [assumption|]). left. split; [reflexivity | lia].
  - exists d, key, a. repeat (split; [assumption|]). right.
    destruct Hf as [Hf|Hf]; [now left | right; eapply time_fires_timed; eassumption].
Qed.

Lemma result_from_loaded_documents_witness :
  let files := [Parsed [("first", ["hi"]); ("every_2_inputs", ["even"])]] in
  exists d key actions,
    In d (loaded files) /\ In (key, actions) d /\ In "hi" actions
    /\ ((key = "first" /\ input_count init = 0)
        \/ input_fires (input_count init + 1) key = true
        \/ (is_time_key key = true /\ exists minutes, piece_int key = Some minutes)).
Proof.
  intros files.
  apply (result_from_loaded_documents files 0 init (get_rules files 0 init).2 ["hi"] "hi").
  - apply injective_projections; [vm_compute; reflexivity | reflexivity].
  - now left.
Defined.

Lemma loaded_app (files1 files2 : list ConfigFile) :
  loaded (files1 ++ files2) = loaded files1 ++ loaded files2.
Proof.
  induction files1 as [|f files1 IH]; [reflexivity|].
  destruct f as [| |[|item d]]; cbn [app loaded]; now rewrite ?IH.
Qed.

(** X3. A configuration file that is missing, that fails to parse or that
    loads as nothing is passed over: [get_rules] does with it what it does
    without it.  When no file gives a document, the call returns the empty
    list and only moves the counter. *)
Theorem unusable_file_passed_over (files1 files2 : list ConfigFile) (f : ConfigFile)
    (now : Z) (self : YakusokuKeeper) :
  f = Missing \/ f = Unparsable \/ f = Parsed [] ->
  get_rules (files1 ++ f :: files2) now self = get_rules (files1 ++ files2) now self
  /\ (loaded (files1 ++ files2) = [] ->
      get_rules (files1 ++ f :: files2) now self
      = (Return [],
         {| input_count := input_count self + 1;
            last_executed_time := last_executed_time self;
            rules := [] |})).
Proof.
  intros Hf.
  assert (E : loaded (files1 ++ f :: files2) = loaded (files1 ++ files2)).
  { rewrite !loaded_app. now destruct Hf as [->|[->| ->]]. }
  rewrite !get_rules_eq. unfold entered. rewrite E. split; [reflexivity|].
  now intros ->.
Qed.

Lemma unusable_file_passed_over_witness :
  get_rules ([Unparsable] ++ Missing :: [Parsed [("every_1_inputs", ["I"])]]) 0 init
  = get_rules ([Unparsable] ++ [Parsed [("every_1_inputs", ["I"])]]) 0 init
  /\ (loaded ([Unparsable] ++ [Parsed [("every_1_inputs", ["I"])]]) = [] ->
      get_rules ([Unparsable] ++ Missing :: [Parsed [("every_1_inputs", ["I"])]]) 0 init
      = (Return [],
         {| input_count := input_count init + 1;
            last_executed_time := last_executed_time init;
            rules := [] |})).
Proof.
  apply (unusable_file_passed_over [Unparsable] [Parsed [("every_1_inputs", ["I"])]]
           Missing 0 init).
  now left.
Defined.

(** X4. [get_rules] removes no entry of the table of last executions: a key
    recorded before the call is recorded after it, with the time it had or
    with the clock reading of the call. *)
Theorem table_entries_survive_get_rules (files : list ConfigFile) (now : Z)
    (self : YakusokuKeeper) (key : string) (t : Z) :
  last_executed_time self !! key = Some t ->
  last_executed_time (get_rules files now self).2 !! key = Some t
  \/ last_executed_time (get_rules files now self).2 !! key = Some now.
Proof.
  intros Ht.
  destruct (decide (last_executed_time (get_rules files now self).2 !! key
                    = last_executed_time self !! key)) as [E|Hne].
  - left. now rewrite E.
  - right. now destruct (get_rules_change files now self key Hne) as [H _].
Qed.

Lemma table_entries_survive_get_rules_witness :
  let self := (get_rules [Parsed [("every_10_minutes", ["B"])]] 5 init).2 in
  last_executed_time (get_rules [] 9 self).2 !! "every_10_minutes" = Some 5
  \/ last_executed_time (get_rules [] 9 self).2 !! "every_10_minutes" = Some 9.
Proof.
  intros self.
  apply (table_entries_survive_get_rules [] 9 self "every_10_minutes" 5).
  vm_compute. reflexivity.
Defined.

(** ** Time keys across documents and across raising calls *)

Lemma time_fires_after_now (n : positive) (t : gmap string Z) (now : Z) :
  t !! minutes_key n = Some now -> time_fires t now (minutes_key n) = false.
Proof.
  intros Ht. rewrite time_fires_minutes_key. unfold elapsed, microseconds_per_minute.
  rewrite Ht. apply Z.leb_gt. lia.
Qed.

Lemma time_fires_spent (n : positive) (t : gmap string Z) (now : Z) :
  time_fires (table_after t now (minutes_key n)) now (minutes_key n) = false.
Proof.
  destruct (time_fires t now (minutes_key n)) eqn:Hf.
  - apply time_fires_after_now. now rewrite table_after_same, Hf.
  - rewrite <- Hf. apply time_fires_lookup. now rewrite table_after_same, Hf.
Qed.

Lemma run_items_stays_quiet (count now : Z) (items : RuleDocument) (t : gmap string Z)
    (k : string) :
  time_fires t now k = false ->
  time_fires (run_items count now items t).2 now k = false.
Proof.
  intros Hf. rewrite <- Hf. apply time_fires_lookup, run_items_quiet.
  apply Forall_forall. now intros item _ _.
Qed.

Lemma run_docs_stays_quiet (count now : Z) (docs : list RuleDocument) (t : gmap string Z)
    (k : string) :
  time_fires t now k = false ->
  time_fires (run_docs count now docs t).2 now k = false.
Proof.
  intros Hf. rewrite <- Hf. apply time_fires_lookup, run_docs_quiet.
  apply Forall_forall. intros d _. apply Forall_forall. now intros item _ _.
Qed.

Lemma run_items_spent (n : positive) (count now : Z) (items : RuleDocument)
    (t : gmap string Z) :
  In (minutes_key n) (map fst items) ->
  time_fires (run_items count now items t).2 now (minutes_key n) = false.
Proof.
  revert t. induction items as [|[k a] items IH]; intros t; [intros []|].
  cbn [map fst run_items]. intros [E|Hin].
  - subst k. pose proof (run_items_stays_quiet count now items _ _ (time_fires_spent n t now)).
    now destruct (run_items count now items _).
  - specialize (IH (table_after t now k) Hin).
    now destruct (run_items count now items _).
Qed.

Lemma run_docs_spent (n : positive) (count now : Z) (docs : list RuleDocument)
    (t : gmap string Z) :
  In (minutes_key n) (map fst (concat docs)) ->
  time_fires (run_docs count now docs t).2 now (minutes_key n) = false.
Proof.
  revert t. induction docs as [|d docs IH]; intros t; [intros []|].
  cbn [concat run_docs]. rewrite map_app, in_app_iff. intros Hin.
  pose proof (run_items_spent n count now d t) as Hd.
  destruct (run_items count now d t) as [out_d table_d]. cbn [snd] in Hd.
  pose proof (run_docs_stays_quiet count now docs table_d (minutes_key n)) as Hkeep.
  specialize (IH table_d).
  destruct (run_docs count now docs table_d) as [out t']. cbn [snd] in *.
  destruct Hin as [Hin|Hin]; auto.
Qed.

Lemma no_key_false (k : string) (docs : list RuleDocument) :
  no_key k docs = false -> In k (map fst (concat docs)).
Proof.
  induction docs as [|d docs IH]; [discriminate|].
  unfold no_key in *. cbn [forallb concat]. rewrite map_app, in_app_iff.
  destruct (forallb _ d) eqn:Hd; [intros H; right; now apply IH|].
  intros _. left. clear IH. induction d as [|[k' a] d IHd]; [discriminate|].
  cbn [forallb fst] in Hd. cbn [map fst].
  destruct (String.eqb_spec k' k) as [->|]; [now left|].
  right. now apply IHd.
Qed.

(** X5. When two items among the loaded documents have the same key
    [every_<n>_minutes], the one that comes later never fires: a directive
    that stands under that later item only is in no result, whatever the
    object and the clock. *)
Theorem repeated_minutes_key_never_fires (n : positive)
    (files : list ConfigFile) (now : Z) (self self' : YakusokuKeeper)
    (before : list RuleDocument) (d_pre : RuleDocument) (actions : list string)
    (d_post : RuleDocument) (after : list RuleDocument)
    (x : string) (res : list string) :
  loaded files = before ++ (d_pre ++ (minutes_key n, actions) :: d_post) :: after ->
  no_key (minutes_key n) (before ++ [d_pre]) = false ->
  no_directive x (before ++ (d_pre ++ d_post) :: after) = true ->
  get_rules files now self = (Return res, self') ->
  ~ In x res.
Proof.
  intros Hdocs Hkey Hno (_ & -> & _)%get_rules_returns.
  rewrite Hdocs, (sole_directive_In _ _ _ _ _ _ _ _ _ _ (minutes_key_not_first n) Hno).
  unfold fired. cbn [fst snd]. rewrite input_fires_minutes_key. cbn [app].
  assert (Hspent : time_fires
            (run_items (input_count self + 1) now d_pre
               (run_docs (input_count self + 1) now before (last_executed_time self)).2).2
            now (minutes_key n) = false).
  { apply no_key_false in Hkey. rewrite concat_app, map_app, in_app_iff in Hkey.
    cbn [concat] in Hkey. rewrite app_nil_r in Hkey. destruct Hkey as [Hin|Hin].
    - now apply run_items_stays_quiet, run_docs_spent.
    - now apply run_items_spent. }
  rewrite Hspent. intros [].
Qed.

Lemma repeated_minutes_key_never_fires_witness :
  let files := [Parsed [("every_60_minutes", ["A"])]; Parsed [("every_60_minutes", ["B"])]] in
  ~ In "B" ["A"].
Proof.
  intros files.
  apply (repeated_minutes_key_never_fires 60 files 0 init (get_rules files 0 init).2
           [[("every_60_minutes", ["A"])]] [] ["B"] [] [] "B" ["A"]).
  - reflexivity.
  - reflexivity.
  - reflexivity.
  - apply injective_projections; [vm_compute; reflexivity | reflexivity].
Defined.

Lemma run_items_keeps (count now : Z) (items : RuleDocument) (t : gmap string Z) (k : string) :
  is_Some (t !! k) -> is_Some ((run_items count now items t).2 !! k).
Proof.
  intros Hk. destruct (run_items_change count now items t k) as [-> | [-> _]]; eauto.
Qed.

Lemma run_docs_keeps (count now : Z) (docs : list RuleDocument) (t : gmap string Z) (k : string) :
  is_Some (t !! k) -> is_Some ((run_docs count now docs t).2 !! k).
Proof.
  intros Hk. destruct (run_docs_change count now docs t k) as [-> | [-> _]]; eauto.
Qed.

Lemma table_after_recorded (t : gmap string Z) (now : Z) (key : string) (minutes : Z) :
  is_time_key key = true -> piece_int key = Some minutes ->
  is_Some (table_after t now key !! key).
Proof.
  intros Ht Hm. rewrite table_after_same. unfold time_fires, elapsed. rewrite Ht, Hm.
  cbn [andb]. destruct (t !! key) as [last|]; [destruct (_ <=? _)|]; eauto.
Qed.

Lemma run_items_recorded (count now : Z) (items : RuleDocument) (t : gmap string Z)
    (key : string) (minutes : Z) :
  In key (map fst items) -> is_time_key key = true -> piece_int key = Some minutes ->
  is_Some ((run_items count now items t).2 !! key).
Proof.
  revert t. induction items as [|[k a] items IH]; intros t; [intros []|].
  cbn [map fst run_items]. intros [E|Hin] Ht Hm.
  - subst k. pose proof (run_items_keeps count now items _ key
                           (table_after_recorded t now key minutes Ht Hm)).
    now destruct (run_items count now items _).
  - specialize (IH (table_after t now k) Hin Ht Hm).
    now destruct (run_items count now items _).
Qed.

Lemma run_docs_recorded (count now : Z) (docs : list RuleDocument) (t : gmap string Z)
    (key : string) (minutes : Z) :
  In key (map fst (concat docs)) -> is_time_key key = true -> piece_int key = Some minutes ->
  is_Some ((run_docs count now docs t).2 !! key).
Proof.
  revert t. induction docs as [|d docs IH]; intros t; [intros []|].
  cbn [concat run_docs]. rewrite map_app, in_app_iff. intros Hin Ht Hm.
  pose proof (run_items_recorded count now d t key minutes) as Hd.
  destruct (run_items count now d t) as [out_d table_d]. cbn [snd] in Hd.
  pose proof (run_docs_keeps count now docs table_d key) as Hkeep.
  specialize (IH table_d).
  destruct (run_docs count now docs table_d) as [out t']. cbn [snd] in *.
  destruct Hin as [Hin|Hin]; auto.
Qed.

(** X6. When [get_rules] returns, every key of the loaded documents on which
    the time test is made has a recorded time afterwards: the clock reading
    of the call, or the time it had before the call. *)
Theorem time_keys_recorded_after_call (files : list ConfigFile) (now : Z)
    (self self' : YakusokuKeeper) (res : list string)
    (d : RuleDocument) (key : string) (actions : list string) :
  get_rules files now self = (Return res, self') ->
  In d (loaded files) -> In (key, actions) d -> is_time_key key = true ->
  last_executed_time self' !! key = Some now
  \/ exists t, last_executed_time self' !! key = Some t
               /\ last_executed_time self !! key = Some t.
Proof.
  intros Hret Hd Hin Ht.
  pose proof (f_equal snd Hret) as Hself. cbn [snd] in Hself. subst self'.
  destruct (decide (last_executed_time (get_rules files now self).2 !! key
                    = last_executed_time self !! key)) as [E|Hne].
  - right. apply get_rules_returns in Hret as (Hok & _ & Hself).
    assert (Hkey : key_ok key = true).
    { unfold keys_ok in Hok. rewrite forallb_forall in Hok. specialize (Hok d Hd).
      unfold items_ok in Hok. rewrite forallb_forall in Hok. exact (Hok _ Hin). }
    unfold key_ok in Hkey. rewrite Ht in Hkey. apply andb_true_iff in Hkey as [_ Hkey].
    destruct (piece_int key) as [minutes|] eqn:Hm; [|discriminate].
    destruct (run_docs_recorded (input_count self + 1) now (loaded files)
                (last_executed_time self) key minutes) as [t Hrec]; [|assumption..|].
    + apply in_map_iff. exists (key, actions). split; [reflexivity|].
      apply in_concat. exists d. now split.
    + rewrite get_rules_ok in E by assumption. cbn [snd with_table last_executed_time] in E.
      exists t. rewrite get_rules_ok by assumption. cbn [snd with_table last_executed_time].
      split; [exact Hrec | now rewrite <- E].
  - left. now destruct (get_rules_change files now self key Hne) as [H _].
Qed.

Lemma time_keys_recorded_after_call_witness :
  let files := [Parsed [("every_10_minutes", ["B"])]] in
  let self := (get_rules files 5 init).2 in
  last_executed_time (get_rules files 9 self).2 !! "every_10_minutes" = Some 9
  \/ exists t, last_executed_time (get_rules files 9 self).2 !! "every_10_minutes" = Some t
               /\ last_executed_time self !! "every_10_minutes" = Some t.
Proof.
  intros files self.
  apply (time_keys_recorded_after_call files 9 self (get_rules files 9 self).2 []
           [("every_10_minutes", ["B"])] "every_10_minutes" ["B"]).
  - apply injective_projections; [vm_compute; reflexivity | reflexivity].
  - now left.
  - now left.
  - reflexivity.
Defined.

(** ** Periodic keys with any integer *)

Lemma mod_abs_zero (a z : Z) : z <> 0 -> (a mod z =? 0) = (a mod Z.abs z =? 0).
Proof.
  intros Hz. apply eq_true_iff_eq. rewrite !Z.eqb_eq.
  rewrite !Z.mod_divide by lia. symmetry. apply Z.divide_abs_l.
Qed.

(** X7. On a key [every_<z>_inputs] written with any integer [z], the loop
    body raises [ZeroDivisionError] for [z = 0], and otherwise appends the
    directives exactly when the counter is a multiple of the absolute value of
    [z]: a negative number counts like the positive one. *)
Theorem every_inputs_any_integer (z now : Z) (acc actions : list string)
    (self : YakusokuKeeper) :
  item_body now acc (every_inputs z, actions) self
  = if z =? 0 then (Raise ZeroDivisionError, self)
    else (Return (if input_count self mod Z.abs z =? 0 then acc ++ actions else acc), self).
Proof.
  destruct (Z.eqb_spec z 0) as [->|Hz].
  - unfold item_body, mbind, M_bind, bind.
    now rewrite input_rule_eq, is_input_key_every_inputs, piece_int_every_inputs.
  - rewrite item_body_ok by (rewrite key_ok_every_inputs; now apply negb_true_iff, Z.eqb_neq).
    unfold fired, table_after, input_fires, time_fires. cbn [fst snd].
    rewrite is_input_key_every_inputs, is_time_key_every_inputs, piece_int_every_inputs.
    cbn [andb]. rewrite with_table_same, app_nil_r.
    rewrite (proj2 (Z.eqb_neq z 0) Hz), <- mod_abs_zero by assumption. cbn [negb andb].
    now destruct (_ mod _ =? 0); rewrite ?app_nil_r.
Qed.

(** X8. On a key [every_<z>_minutes] with [z] zero or negative, the loop body
    appends the directives and records the clock reading on every call, as
    long as the clock is not behind the recorded time. *)
Theorem every_minutes_not_positive (z now : Z) (acc actions : list string)
    (self : YakusokuKeeper) :
  z <= 0 ->
  match last_executed_time self !! every_minutes z with
  | Some last => last <= now
  | None => True
  end ->
  item_body now acc (every_minutes z, actions) self
  = (Return (acc ++ actions), set_last_executed_time (every_minutes z) now self).
Proof.
  intros Hz Hlast. rewrite item_body_ok by apply key_ok_every_minutes.
  unfold fired, table_after, input_fires, time_fires, elapsed. cbn [fst snd].
  rewrite is_input_key_every_minutes, is_time_key_every_minutes, piece_int_every_minutes.
  cbn [andb app].
  destruct (last_executed_time self !! every_minutes z) as [last|]; [|reflexivity].
  unfold microseconds_per_minute.
  now rewrite (proj2 (Z.leb_le _ _)) by nia.
Qed.

Lemma every_minutes_not_positive_witness :
  let self := (get_rules [Parsed [("every_0_minutes", ["Z"])]] 5 init).2 in
  item_body 5 [] (every_minutes 0, ["Z"]) self
  = (Return ([] ++ ["Z"]), set_last_executed_time (every_minutes 0) 5 self).
Proof.
  intros self. apply (every_minutes_not_positive 0 5 [] ["Z"] self).
  - lia.
  - vm_compute. discriminate.
Defined.

(** X9. A call that raises keeps the times it has recorded.  When an item
    [every_<n>_minutes] that is due (the first with its key) is followed, in
    its document, by a key at which the loop raises, the call returns no
    directive and yet leaves the clock reading recorded for the key. *)
Theorem raising_call_keeps_recorded_time (n : positive)
    (files : list ConfigFile) (now : Z) (self : YakusokuKeeper)
    (before : list RuleDocument) (d_pre : RuleDocument) (actions : list string)
    (d_post : RuleDocument) (after : list RuleDocument) :
  loaded files = before ++ (d_pre ++ (minutes_key n, actions) :: d_post) :: after ->
  keys_ok (before ++ [d_pre]) = true ->
  items_ok d_post = false ->
  no_key (minutes_key n) (before ++ [d_pre]) = true ->
  elapsed (last_executed_time self) now (minutes_key n) (Z.pos n) = true ->
  (exists e, (get_rules files now self).1 = Raise e)
  /\ last_executed_time (get_rules files now self).2 !! minutes_key n = Some now.
Proof.
  intros Hdocs Hok Hbad Hkey Hdue.
  unfold keys_ok in Hok. rewrite forallb_app in Hok. cbn [forallb] in Hok.
  rewrite andb_true_r in Hok. apply andb_true_iff in Hok as [Hbefore Hpre].
  unfold no_key in Hkey. rewrite forallb_app in Hkey. cbn [forallb] in Hkey.
  rewrite andb_true_r in Hkey. apply andb_true_iff in Hkey as [Hkb Hkp].
  rewrite get_rules_eq, Hdocs, for_each_app. unfold mbind, M_bind, bind.
  rewrite for_each_docs_ok by assumption. cbn [for_each]. unfold mbind, M_bind, bind.
  rewrite rule_set_body_eq, for_each_app. unfold mbind, M_bind, bind.
  rewrite for_each_items_ok by assumption. cbn [for_each]. unfold mbind, M_bind, bind.
  rewrite item_body_ok by apply key_ok_minutes_key.
  cbn [with_table input_count last_executed_time rules entered].
  match goal with
  | |- context [for_each d_post _ ?a ?s] =>
      destruct (for_each_items_raise now d_post a s Hbad) as (e & done & rest & _ & _ & ->)
  end.
  cbn [fst snd with_table last_executed_time input_count].
  split; [now exists e|].
  apply run_items_now. rewrite table_after_same, time_fires_minutes_key.
  unfold elapsed in *.
  now rewrite (table_before_item _ now (minutes_key n) before d_pre _ Hkb Hkp), Hdue.
Qed.

Lemma raising_call_keeps_recorded_time_witness :
  let files := [Parsed [("every_1_minutes", ["A"]); ("every_x_inputs", ["B"])]] in
  (exists e, (get_rules files 7 init).1 = Raise e)
  /\ last_executed_time (get_rules files 7 init).2 !! minutes_key 1 = Some 7.
Proof.
  intros files.
  apply (raising_call_keeps_recorded_time 1 files 7 init
           [] [] ["A"] [("every_x_inputs", ["B"])] []); reflexivity.
Defined.

(** ** Mappings: item assignment, deletion and lookup *)



Lemma get_no_key (key : string) (config : RuleDocument) :
  has_key key config = false -> get key config = [].
Proof.
  induction config as [|[k w] config IH]; cbn [has_key get]; [reflexivity|].
  destruct (String.eqb k key); [discriminate | exact IH].
Qed.

Lemma get_set_item (key k : string) (v : list string) (config : RuleDocument) :
  get k (set_item key v config) = if String.eqb key k then v else get k config.
Proof.
  induction config as [|[k' w] config IH]; cbn [set_item get].
  - reflexivity.
  - destruct (String.eqb_spec k' key) as [->|Hne]; cbn [get].
    + now destruct (String.eqb key k).
    + rewrite IH. destruct (String.eqb_spec k' k) as [->|]; [|reflexivity].
      now destruct (String.eqb_spec key k); [congruence|].
Qed.



Lemma set_item_set_item (key : string) (v w : list string) (config : RuleDocument) :
  set_item key v (set_item key w config) = set_item key v config.
Proof.
  induction config as [|[k' u] config IH]; cbn [set_item].
  - now rewrite String.eqb_refl.
  - destruct (String.eqb k' key) eqn:E; cbn [set_item]; rewrite E; [reflexivity|].
    now rewrite IH.
Qed.








(** ** The editing operations, case by case *)




Lemma add_rule_eq (rule_type rule_content target : string) (value : option Z) (fs : Files) :
  add_rule rule_type rule_content target value fs
  = match config_file target fs with
    | Missing => ((error, ConfigFileDoesNotExist), fs)
    | Unparsable => ((error, YamlParsingError), fs)
    | Parsed config =>
        match rule_key rule_type value with
        | None => ((error, InvalidRuleType), fs)
        | Some key =>
            if mem rule_content (get key config)
            then ((warning, RuleAlreadyExists), fs)
            else ((success, RuleAdded),
                  write_config_file target
                    (Parsed (set_item key (get key config ++ [rule_content]) config)) fs)
        end
    end.
Proof.
  unfold add_rule. destruct (config_file target fs) as [| |config]; try reflexivity.
  destruct (rule_key rule_type value) as [key|]; [|reflexivity].
  destruct (has_key key config) eqn:Hk; [reflexivity|].
  rewrite get_set_item, String.eqb_refl, (get_no_key key config Hk), set_item_set_item.
  reflexivity.
Qed.

Lemma rule_key_ok (rule_type : string) (value : option Z) (key : string) :
  rule_key rule_type value = Some key -> key_ok key = true.
Proof.
  unfold rule_key, truthy.
  destruct (String.eqb rule_type "first"); [now intros [= <-]|].
  destruct value as [z|].
  - destruct (String.eqb rule_type "every_N_inputs"); cbn [andb default].
    + destruct (negb (z =? 0)) eqn:Hz.
      * intros [= <-]. now rewrite key_ok_every_inputs.
      * destruct (String.eqb rule_type "every_N_minutes"); cbn [andb]; discriminate.
    + destruct (String.eqb rule_type "every_N_minutes"); cbn [andb]; [|discriminate].
      destruct (negb (z =? 0)); [|discriminate].
      intros [= <-]. apply key_ok_every_minutes.
  - rewrite !andb_false_r. discriminate.
Qed.

Lemma items_ok_set_item (key : string) (v : list string) (config : RuleDocument) :
  key_ok key = true -> items_ok config = true -> items_ok (set_item key v config) = true.
Proof.
  intros Hk. unfold items_ok.
  induction config as [|[k' u] config IH]; cbn [set_item forallb fst].
  - now rewrite Hk.
  - intros [Hhead Hrest]%andb_true_iff.
    destruct (String.eqb k' key); cbn [forallb fst]; rewrite Hhead; [exact Hrest | now apply IH].
Qed.

Lemma items_ok_del_item (key : string) (config : RuleDocument) :
  items_ok config = true -> items_ok (del_item key config) = true.
Proof.
  unfold items_ok. induction config as [|[k' u] config IH]; cbn [del_item forallb fst]; [easy|].
  intros [Hhead Hrest]%andb_true_iff.
  destruct (String.eqb k' key); [exact Hrest|].
  cbn [forallb fst]. rewrite Hhead. now apply IH.
Qed.

Lemma keys_ok_loaded (files : list ConfigFile) :
  keys_ok (loaded files) = forallb file_ok files.
Proof.
  unfold keys_ok. induction files as [|f files IH]; [reflexivity|].
  destruct f as [| |[|item config]]; cbn [loaded forallb file_ok]; now rewrite IH.
Qed.

Lemma files_ok_write (target : string) (f : ConfigFile) (fs : Files) :
  file_ok f = true ->
  keys_ok (loaded (config_files fs)) = true ->
  keys_ok (loaded (config_files (write_config_file target f fs))) = true.
Proof.
  rewrite !keys_ok_loaded. unfold config_files, write_config_file. cbn [forallb].
  intros Hf [Hh [Hp _]%andb_true_iff]%andb_true_iff.
  destruct (is_home target); cbn [home_file project_file]; now rewrite ?Hf, ?Hh, ?Hp.
Qed.

Lemma file_ok_target (target : string) (config : RuleDocument) (fs : Files) :
  config_file target fs = Parsed config ->
  keys_ok (loaded (config_files fs)) = true -> items_ok config = true.
Proof.
  rewrite keys_ok_loaded. unfold config_files, config_file. cbn [forallb].
  intros Hc [Hh [Hp _]%andb_true_iff]%andb_true_iff.
  destruct (is_home target); [rewrite Hc in Hh | rewrite Hc in Hp]; assumption.
Qed.

(** ** Properties of [add_rule] and [remove_rule] *)

Lemma remove_rule_not_success (rule_type rule_content target : string) (value : option Z)
    (fs : Files) :
  (remove_rule rule_type rule_content target value fs).1.1 <> success ->
  (remove_rule rule_type rule_content target value fs).2 = fs.
Proof.
  unfold remove_rule. destruct (config_file target fs) as [| |config]; try reflexivity.
  destruct (rule_key rule_type value) as [key|]; [|reflexivity].
  destruct (has_key key config); cbn [negb]; [|reflexivity].
  destruct (mem rule_content (get key config)); [|reflexivity].
  cbn. congruence.
Qed.

(** X10. [add_rule] and [remove_rule] answer [error] exactly when the target
    file is missing, or does not parse, or the rule type with its value names
    no key; a rule type other than [first] names no key when the value is
    [None] or [0].  Whenever the answer is not [success], both files are left
    as they were. *)
Theorem edit_errors_and_no_write (rule_type rule_content target : string)
    (value : option Z) (fs : Files) :
  let refused :=
    config_file target fs = Missing \/ config_file target fs = Unparsable
    \/ rule_key rule_type value = None in
  ((add_rule rule_type rule_content target value fs).1.1 = error <-> refused)
  /\ ((remove_rule rule_type rule_content target value fs).1.1 = error <-> refused)
  /\ (rule_type <> "first" -> truthy value = false -> rule_key rule_type value = None)
  /\ ((add_rule rule_type rule_content target value fs).1.1 <> success ->
      (add_rule rule_type rule_content target value fs).2 = fs)
  /\ ((remove_rule rule_type rule_content target value fs).1.1 <> success ->
      (remove_rule rule_type rule_content target value fs).2 = fs).
Proof.
  cbn zeta. split; [|split; [|split; [|split]]].
  - rewrite add_rule_eq. destruct (config_file target fs) as [| |config].
    + cbn. tauto.
    + cbn. tauto.
    + destruct (rule_key rule_type value) as [key|].
      * destruct (mem rule_content (get key config)); cbn;
          (split; [discriminate | intros [|[|]]; discriminate]).
      * cbn. tauto.
  - unfold remove_rule. destruct (config_file target fs) as [| |config].
    + cbn. tauto.
    + cbn. tauto.
    + destruct (rule_key rule_type value) as [key|].
      * destruct (has_key key config); cbn [negb];
          [destruct (mem rule_content (get key config))|]; cbn;
          (split; [discriminate | intros [|[|]]; discriminate]).
      * cbn. tauto.
  - intros Hfirst Hv. unfold rule_key. rewrite Hv, !andb_false_r.
    now destruct (String.eqb_spec rule_type "first").
  - rewrite add_rule_eq. destruct (config_file target fs) as [| |config]; try reflexivity.
    destruct (rule_key rule_type value) as [key|]; [|reflexivity].
    destruct (mem rule_content (get key config)); [reflexivity|]. cbn. congruence.
  - apply remove_rule_not_success.
Qed.









(** ** Editing and evaluation together *)

Lemma returns_iff_keys_ok (files : list ConfigFile) (now : Z) (self : YakusokuKeeper) :
  (exists res self', get_rules files now self = (Return res, self'))
  <-> keys_ok (loaded files) = true.
Proof.
  split.
  - intros (res & self' & H). now apply get_rules_returns in H.
  - intros Hok. rewrite get_rules_ok by assumption. eauto.
Qed.

Lemma add_rule_keeps_keys_ok (rule_type rule_content target : string) (value : option Z)
    (fs : Files) :
  keys_ok (loaded (config_files fs)) = true ->
  keys_ok (loaded (config_files (add_rule rule_type rule_content target value fs).2)) = true.
Proof.
  intros Hok. rewrite add_rule_eq.
  destruct (config_file target fs) as [| |config] eqn:Hc; try exact Hok.
  destruct (rule_key rule_type value) as [key|] eqn:Hkey; [|exact Hok].
  destruct (mem rule_content (get key config)); [exact Hok|]. cbn [snd].
  apply files_ok_write; [|exact Hok]. cbn [file_ok].
  apply items_ok_set_item; [eapply rule_key_ok; eassumption|].
  eapply file_ok_target; eassumption.
Qed.

Lemma remove_rule_keeps_keys_ok (rule_type rule_content target : string) (value : option Z)
    (fs : Files) :
  keys_ok (loaded (config_files fs)) = true ->
  keys_ok (loaded (config_files (remove_rule rule_type rule_content target value fs).2)) = true.
Proof.
  intros Hok. unfold remove_rule.
  destruct (config_file target fs) as [| |config] eqn:Hc; try exact Hok.
  destruct (rule_key rule_type value) as [key|] eqn:Hkey; [|exact Hok].
  destruct (has_key key config); cbn [negb]; [|exact Hok].
  destruct (mem rule_content (get key config)); [|exact Hok]. cbn [snd].
  pose proof (file_ok_target target config fs Hc Hok) as Hconfig.
  apply files_ok_write; [|exact Hok]. cbn [file_ok].
  destruct (list_remove rule_content (get key config)).
  - now apply items_ok_del_item.
  - apply items_ok_set_item; [eapply rule_key_ok; eassumption | exact Hconfig].
Qed.

(** X15. The editing operations cannot make [get_rules] raise: when
    [get_rules] returns on the two configuration files, it returns on the files
    that [add_rule] or [remove_rule] leaves, whatever their arguments, and for
    every object and clock. *)
Theorem edits_keep_get_rules_returning (rule_type rule_content target : string)
    (value : option Z) (fs : Files) (now : Z) (self : YakusokuKeeper)
    (res : list string) (self' : YakusokuKeeper) :
  get_rules (config_files fs) now self = (Return res, self') ->
  forall now1 self1,
    (exists res1 self1',
        get_rules (config_files (add_rule rule_type rule_content target value fs).2)
          now1 self1 = (Return res1, self1'))
    /\ (exists res1 self1',
          get_rules (config_files (remove_rule rule_type rule_content target value fs).2)
            now1 self1 = (Return res1, self1')).
Proof.
  intros (Hok & _ & _)%get_rules_returns now1 self1. split; apply returns_iff_keys_ok.
  - now apply add_rule_keeps_keys_ok.
  - now apply remove_rule_keeps_keys_ok.
Qed.

Lemma edits_keep_get_rules_returning_witness :
  let fs := {| home_file := Missing;
               project_file := Parsed [("every_5_inputs", ["tidy"])] |} in
  (exists res1 self1',
      get_rules (config_files (add_rule "every_N_inputs" "x" "project" (Some (-2)) fs).2)
        9 init = (Return res1, self1'))
  /\ (exists res1 self1',
        get_rules (config_files (remove_rule "every_N_inputs" "x" "project" (Some (-2)) fs).2)
          9 init = (Return res1, self1')).
Proof.
  intros fs.
  apply (edits_keep_get_rules_returning "every_N_inputs" "x" "project" (Some (-2)) fs 0 init
           [] (get_rules (config_files fs) 0 init).2).
  apply injective_projections; [vm_compute; reflexivity | reflexivity].
Defined.





(** ** Start of the server *)

(** X17. [initialize_config_files] leaves alone every file that exists and
    creates the others, so that no file is missing afterwards and a second run
    changes nothing; the files it creates raise nothing in [get_rules]; and
    after it neither editing operation answers that the file does not exist. *)
Theorem initialize_config_files_once (fs : Files) :
  let fs' := initialize_config_files fs in
  (home_file fs <> Missing -> home_file fs' = home_file fs)
  /\ (project_file fs <> Missing -> project_file fs' = project_file fs)
  /\ home_file fs' <> Missing /\ project_file fs' <> Missing
  /\ initialize_config_files fs' = fs'
  /\ (keys_ok (loaded (config_files fs)) = true
      -> keys_ok (loaded (config_files fs')) = true)
  /\ (forall rule_type rule_content target value,
        (add_rule rule_type rule_content target value fs').1.2 <> ConfigFileDoesNotExist
        /\ (remove_rule rule_type rule_content target value fs').1.2
           <> ConfigFileDoesNotExist).
Proof.
  destruct fs as [h p]. cbn zeta. unfold initialize_config_files. cbn [home_file project_file].
  split; [now destruct h|]. split; [now destruct p|].
  split; [now destruct h|]. split; [now destruct p|].
  split; [now destruct h, p|]. split.
  - rewrite !keys_ok_loaded. unfold config_files. cbn [home_file project_file forallb].
    destruct h, p; cbn [file_ok]; try tauto; intros H; try reflexivity;
      rewrite ?andb_true_r in *; try exact H.
    all: apply andb_true_iff in H as [H _]; now rewrite H.
  - intros rule_type rule_content target value. rewrite add_rule_eq. unfold remove_rule.
    unfold config_file. cbn [home_file project_file].
    split; destruct (is_home target), h, p;
      repeat match goal with
             | |- context [match ?x with _ => _ end] => destruct x
             | |- context [if ?x then _ else _] => destruct x
             end; discriminate.
Qed.

(** ** Removal and evaluation together *)









(** The first call on a machine without configuration files: the six [first]
    directives of the project default, then the one of [every_60_minutes]. *)
Example first_call_on_defaults :
  let fs := initialize_config_files {| home_file := Missing; project_file := Missing |} in
  (get_rules (config_files fs) 0 init).1
  = Return (get "first" default_project_rules ++ get "every_60_minutes" default_project_rules).
Proof. vm_compute. reflexivity. Qed.
